(** * python_tutorials: the decorator and exception-handling notebooks

    A shallow embedding of the code cells of [decorators.ipynb] and of the
    exception-handling notebook.  Python functions become Rocq functions in
    a monad that threads the interpreter's world (pending console input and
    the wall clock), records what the program writes and which callables it
    invokes, and either returns a value or raises an exception object. *)

From Stdlib Require Import String Ascii List ZArith Bool Lia DecimalString.
From Stdlib Require QArith.
Import ListNotations.
Local Open Scope string_scope.

(** ** The Python runtime the notebooks rely on *)

Module Py.

(** The exception classes the notebooks name, and user-defined subclasses
    ([class SuperConfusingError(Exception)]). *)
Inductive exc_class : Type :=
| BaseException
| Exception
| SystemExit
| KeyboardInterrupt
| ArithmeticError
| ZeroDivisionError
| LookupError
| IndexError
| ValueError
| NameError
| EOFError
| TypeError
| UserDefined (name : string) (base : exc_class).

Definition exc_class_eq_dec (c d : exc_class) : {c = d} + {c <> d}.
Proof. decide equality. apply string_dec. Defined.

Definition exc_class_eqb (c d : exc_class) : bool :=
  if exc_class_eq_dec c d then true else false.

(** The method resolution order of an exception class: the class itself
    followed by its bases up to [BaseException]. *)
Fixpoint mro (c : exc_class) : list exc_class :=
  match c with
  | BaseException => [BaseException]
  | Exception => [Exception; BaseException]
  | SystemExit => [SystemExit; BaseException]
  | KeyboardInterrupt => [KeyboardInterrupt; BaseException]
  | ArithmeticError => [ArithmeticError; Exception; BaseException]
  | ZeroDivisionError =>
      [ZeroDivisionError; ArithmeticError; Exception; BaseException]
  | LookupError => [LookupError; Exception; BaseException]
  | IndexError => [IndexError; LookupError; Exception; BaseException]
  | ValueError => [ValueError; Exception; BaseException]
  | NameError => [NameError; Exception; BaseException]
  | EOFError => [EOFError; Exception; BaseException]
  | TypeError => [TypeError; Exception; BaseException]
  | UserDefined _ base => c :: mro base
  end.

Definition issubclass (c d : exc_class) : bool :=
  existsb (exc_class_eqb d) (mro c).

(** An exception object: its class, the arguments it was built with, and
    the three chaining attributes of [BaseException]. *)
#[warnings="-register-all"]
Inductive exn : Type :=
  MkExn { exc_type : exc_class;
          args : list string;
          __cause__ : option exn;
          __context__ : option exn;
          __suppress_context__ : bool }.

(** [Cls('message')]: a fresh exception, nothing chained. *)
Definition new_exn (c : exc_class) (msg : string) : exn :=
  MkExn c [msg] None None false.

Definition isinstance (e : exn) (c : exc_class) : bool :=
  issubclass (exc_type e) c.

(** Raising while [handled] is being handled records it as the implicit
    context of the raised exception. *)
Definition set_context (handled : option exn) (e : exn) : exn :=
  match handled with
  | None => e
  | Some h =>
      MkExn (exc_type e) (args e) (__cause__ e) (Some h)
            (__suppress_context__ e)
  end.

(** [raise e from cause]: the cause is stored (also when it is [None]) and
    the implicit context is marked as suppressed. *)
Definition set_cause (cause : option exn) (e : exn) : exn :=
  MkExn (exc_type e) (args e) cause (__context__ e) true.

(** The exception an unhandled [e] is reported after in a traceback: its
    explicit cause or, unless suppressed, its implicit context. *)
Definition reported_predecessor (e : exn) : option exn :=
  match __cause__ e with
  | Some c => Some c
  | None => if __suppress_context__ e then None else __context__ e
  end.

(** How a call ends. *)
Inductive outcome (A : Type) : Type :=
| Returned (a : A)
| Raised (e : exn).
Arguments Returned {A} a.
Arguments Raised {A} e.

(** The line terminator [print] appends. *)
Definition newline : string := String "010"%char EmptyString.

(** What the host supplies and the notebooks treat as given: the objects
    passed to and returned by user functions with their [str()] (taken to
    be total), and floating-point numbers with subtraction, [str()] and
    the quotient [a / b] of two integers with [b] not zero. *)
Class Host : Type :=
  { pyobj : Type;
    str : pyobj -> string;
    float : Type;
    float_sub : float -> float -> float;
    float_str : float -> string;
    truediv : Z -> Z -> float }.

Section Runtime.
Context `{Host}.

(** The part of the interpreter's state the notebooks read: the lines
    waiting on the console, and the readings [time.time()] will give. *)
Record world : Type :=
  { stdin : list string;
    clock : nat -> float }.

(** What a run leaves behind: text written to the console, and the
    invocation of a callable with its positional and keyword arguments. *)
Inductive event : Type :=
| Write (text : string)
| Call (name : string) (pos : list pyobj) (kw : list (string * pyobj)).

Record run (A : Type) : Type :=
  MkRun { result : outcome A;
          after : world;
          trace : list event }.
Arguments MkRun {A} result after trace.
Arguments result {A} r.
Arguments after {A} r.
Arguments trace {A} r.

Definition M (A : Type) : Type := world -> run A.

Definition ret {A} (a : A) : M A := fun w => MkRun (Returned a) w [].

Definition raise {A} (e : exn) : M A := fun w => MkRun (Raised e) w [].

Definition bind {A B} (m : M A) (k : A -> M B) : M B :=
  fun w =>
    let r := m w in
    match result r with
    | Raised e => MkRun (Raised e) (after r) (trace r)
    | Returned a =>
        let r' := k a (after r) in
        MkRun (result r') (after r') (trace r ++ trace r')
    end.

Definition is_call (ev : event) : bool :=
  match ev with
  | Call _ _ _ => true
  | Write _ => false
  end.

(** How many invocations of callables a trace records. *)
Definition calls_made (tr : list event) : nat :=
  List.length (filter is_call tr).

Definition emit (ev : event) : M unit :=
  fun w => MkRun (Returned tt) w [ev].

(** [try: body / except cls as e: handler e]; an exception that is not
    an instance of [cls] is not caught. *)
Definition try_except {A} (body : M A) (cls : exc_class)
    (handler : exn -> M A) : M A :=
  fun w =>
    let r := body w in
    match result r with
    | Returned a => r
    | Raised e =>
        if isinstance e cls then
          let r' := handler e (after r) in
          MkRun (result r') (after r') (trace r ++ trace r')
        else r
    end.

(** [print(s)] *)
Definition print (s : string) : M unit := emit (Write (s ++ newline)).

(** [time.time()] *)
Definition time_time : M float :=
  fun w =>
    MkRun (Returned (clock w 0))
          {| stdin := stdin w; clock := fun n => clock w (S n) |} [].

(** [s[i]] on a string: negative indices count from the end. *)
Definition str_getitem (s : string) (i : Z) : M string :=
  let n := Z.of_nat (String.length s) in
  let j := if (i <? 0)%Z then (i + n)%Z else i in
  if (j <? 0)%Z then raise (new_exn IndexError "string index out of range")
  else
    match String.get (Z.to_nat j) s with
    | Some c => ret (String c EmptyString)
    | None => raise (new_exn IndexError "string index out of range")
    end.

(** [x in (s1, ..., sn)] for strings. *)
Definition str_in (x : string) (t : list string) : bool :=
  existsb (String.eqb x) t.

(** [a / b] on integers. *)
Definition int_truediv (a b : Z) : M float :=
  if (b =? 0)%Z then raise (new_exn ZeroDivisionError "division by zero")
  else ret (truediv a b).

(** [input(prompt)] on the console: the prompt is written without a line
    end and the next pending line is consumed. *)
Definition console_input (prompt : string) : M string :=
  fun w =>
    match stdin w with
    | [] =>
        MkRun (Raised (new_exn EOFError "EOF when reading a line")) w
              [Write prompt]
    | line :: rest =>
        MkRun (Returned line) {| stdin := rest; clock := clock w |}
              [Write prompt]
    end.

(** A function object: its name, qualified name and docstring, which
    [functools.wraps] copies, and what calling it with [*args] and
    [**kwargs] does. *)
Record pyfunc : Type :=
  { __name__ : string;
    __qualname__ : string;
    __doc__ : option string;
    __call__ : list pyobj -> list (string * pyobj) -> M pyobj }.

(** [f( *args, **kwargs)] *)
Definition call (f : pyfunc) (pos : list pyobj)
    (kw : list (string * pyobj)) : M pyobj :=
  bind (emit (Call (__name__ f) pos kw)) (fun _ => __call__ f pos kw).

(** [functools.wraps(wrapped)(wrapper)] *)
Definition wraps (wrapped wrapper : pyfunc) : pyfunc :=
  {| __name__ := __name__ wrapped;
     __qualname__ := __qualname__ wrapped;
     __doc__ := __doc__ wrapped;
     __call__ := __call__ wrapper |}.

End Runtime.

Arguments MkRun {_ A} result after trace.
Arguments result {_ A} r.
Arguments after {_ A} r.
Arguments trace {_ A} r.

Declare Scope py_scope.
Delimit Scope py_scope with py.
Notation "x <- m ;; k" := (bind m (fun x => k))
  (at level 61, m at next level, right associativity) : py_scope.
Notation "m ;;; k" := (bind m (fun _ => k))
  (at level 61, right associativity) : py_scope.

End Py.

(** ** decorators.ipynb *)

Module Decorators.
Import Py.
Local Open Scope py_scope.

Section Cells.
Context `{Host}.

(** The first definition of [timer]: the wrapper keeps its own name. *)
Definition timer_plain (func : pyfunc) : pyfunc :=
  {| __name__ := "new_func";
     __qualname__ := "timer.<locals>.new_func";
     __doc__ := None;
     __call__ := fun args kwargs =>
       start <- time_time ;;
       value <- call func args kwargs ;;
       stop <- time_time ;;
       let duration := float_sub stop start in
       print ("Running " ++ __name__ func ++ " took "
                ++ float_str duration ++ " seconds.") ;;;
       ret value |}.

(** The first definition of [log_result]. *)
Definition log_result_plain (func : pyfunc) : pyfunc :=
  {| __name__ := "new_func";
     __qualname__ := "log_result.<locals>.new_func";
     __doc__ := None;
     __call__ := fun args kwargs =>
       value <- call func args kwargs ;;
       print (__name__ func ++ " returned " ++ str value ++ ".") ;;;
       ret value |}.

(** The final definitions, with [@functools.wraps(func)]. *)
Definition timer (func : pyfunc) : pyfunc :=
  wraps func (timer_plain func).

Definition log_result (func : pyfunc) : pyfunc :=
  wraps func (log_result_plain func).

Definition describe_as_boring (func : pyfunc) : pyfunc :=
  wraps func
    {| __name__ := "new_func";
       __qualname__ := "describe_as_boring.<locals>.new_func";
       __doc__ := None;
       __call__ := fun args kwargs =>
         print (__name__ func ++ " is a boring function.") ;;;
         call func args kwargs |}.

(** The decorator [describe_as] builds once the article is chosen. *)
Definition decorator (article adjective : string) (func : pyfunc)
    : pyfunc :=
  wraps func
    {| __name__ := "new_func";
       __qualname__ := "describe_as.<locals>.decorator.<locals>.new_func";
       __doc__ := None;
       __call__ := fun args kwargs =>
         print (__name__ func ++ " is " ++ article ++ " " ++ adjective
                  ++ " function.") ;;;
         call func args kwargs |}.

Definition describe_as (adjective : string) : M (pyfunc -> pyfunc) :=
  first <- str_getitem adjective 0 ;;
  let article :=
    if str_in first ["a"; "e"; "i"; "o"; "u"] then "an" else "a" in
  ret (decorator article adjective).

(** *** The appendix: a command registry *)

Definition InvalidCommand : exc_class := UserDefined "InvalidCommand" Exception.

(** A [dict] from names to functions.  Iteration follows insertion order:
    assigning to a present key keeps its place, a new key goes last. *)
Definition dict : Type := list (string * pyfunc).

Fixpoint dict_get (d : dict) (k : string) : option pyfunc :=
  match d with
  | [] => None
  | (k', v) :: rest => if String.eqb k k' then Some v else dict_get rest k
  end.

Fixpoint dict_setitem (d : dict) (k : string) (v : pyfunc) : dict :=
  match d with
  | [] => [(k, v)]
  | (k', v') :: rest =>
      if String.eqb k k' then (k', v) :: rest
      else (k', v') :: dict_setitem rest k v
  end.

Record Robot : Type := { commands : dict }.

(** [Robot()] *)
Definition Robot_init : Robot := {| commands := [] |}.

Definition __getattr__ (self : Robot) (attr : string) : M pyfunc :=
  let command := dict_get (commands self) attr in
  match command with
  | None => raise (new_exn InvalidCommand attr)
  | Some f => ret f
  end.

(** The robot is updated in place: the first component is the robot
    after the call, the second what the call returns. *)
Definition register_command (self : Robot) (func : pyfunc)
    : Robot * pyfunc :=
  ({| commands := dict_setitem (commands self) (__name__ func) func |},
   func).

Definition list_commands (self : Robot) : list string :=
  map fst (commands self).

(** The names the class statement puts in [Robot.__dict__]. *)
Definition Robot_class_attrs : list string :=
  ["__module__"; "__init__"; "__getattr__"; "register_command";
   "list_commands"; "__dict__"; "__weakref__"; "__doc__"].

(** The names every instance inherits from [object] (Python 3.8, the
    notebook's kernel). *)
Definition object_attrs : list string :=
  ["__class__"; "__delattr__"; "__dir__"; "__doc__"; "__eq__";
   "__format__"; "__ge__"; "__getattribute__"; "__gt__"; "__hash__";
   "__init__"; "__init_subclass__"; "__le__"; "__lt__"; "__ne__";
   "__new__"; "__reduce__"; "__reduce_ex__"; "__repr__"; "__setattr__";
   "__sizeof__"; "__str__"; "__subclasshook__"].

Inductive attribute : Type :=
| TheCommands (d : dict)
| Inherited (name : string)
| Command (f : pyfunc).

(** The ordinary lookup of [self.name]: the instance's own attribute,
    then the class and [object]; [None] when it finds nothing. *)
Definition explicit_attribute (self : Robot) (name : string)
    : option attribute :=
  if String.eqb name "commands" then Some (TheCommands (commands self))
  else if str_in name (Robot_class_attrs ++ object_attrs)
       then Some (Inherited name)
       else None.

(** [self.name]: [__getattr__] is consulted only when the ordinary
    lookup finds nothing. *)
Definition getattr (self : Robot) (name : string) : M attribute :=
  match explicit_attribute self name with
  | Some a => ret a
  | None => f <- __getattr__ self name ;; ret (Command f)
  end.

(** The lines the wrappers write, as the statements below name them. *)
Definition timer_line (func : pyfunc) (start stop : float) : string :=
  ("Running " ++ __name__ func ++ " took "
     ++ float_str (float_sub stop start) ++ " seconds.") ++ newline.

Definition log_result_line (func : pyfunc) (value : pyobj) : string :=
  (__name__ func ++ " returned " ++ str value ++ ".") ++ newline.

Definition describe_as_line (func : pyfunc) (article adjective : string)
    : string :=
  (__name__ func ++ " is " ++ article ++ " " ++ adjective ++ " function.")
    ++ newline.

(** The rule of the article in the spec's words: [an] when the adjective
    starts with a vowel, in either case, [a] otherwise. *)
Definition starts_with_vowel (adjective : string) : bool :=
  match adjective with
  | String c _ =>
      existsb (Ascii.eqb c)
        ["a"; "e"; "i"; "o"; "u"; "A"; "E"; "I"; "O"; "U"]%char
  | EmptyString => false
  end.

(** The rule as [describe_as] applies it to the first character. *)
Definition article_for (c : ascii) : string :=
  if existsb (Ascii.eqb c) ["a"; "e"; "i"; "o"; "u"]%char then "an" else "a".

(** The robot after decorating each function of [fs], in order, with
    [@robot.register_command]. *)
Definition register_all (self : Robot) (fs : list pyfunc) : Robot :=
  fold_left (fun r f => fst (register_command r f)) fs self.

(** Among the functions of [fs], the one decorated last under [name]. *)
Definition last_registered (name : string) (fs : list pyfunc)
    : option pyfunc :=
  find (fun f => String.eqb name (__name__ f)) (rev fs).

End Cells.

End Decorators.

(** ** The exception-handling notebook *)

Module ExceptionHandling.
Import Py.
Local Open Scope py_scope.

Section Cells.
Context `{Host}.

(** The built-ins [input] and [int] the cells call. *)
Variable input : string -> M string.
Variable int : string -> M Z.

(** [raise e] and [raise e from cause] written inside the [except]
    clause that is handling [handled]. *)
Definition raise_handling {A} (handled e : exn) : M A :=
  raise (set_context (Some handled) e).

Definition raise_from_handling {A} (handled e : exn)
    (cause : option exn) : M A :=
  raise (set_context (Some handled) (set_cause cause e)).

(** [int(input(f'{msg}: '))] *)
Definition read_number (msg : string) : M Z :=
  line <- input (msg ++ ": ") ;; int line.

(** [good_reciprocal(msg='Enter a number')] *)
Definition good_reciprocal (msg : string) : M unit :=
  parsed <- try_except
              (line <- input (msg ++ ": ") ;;
               num <- int line ;;
               ret (Some num))
              ValueError
              (fun _ => print "Invalid input!" ;;; ret None) ;;
  match parsed with
  | None => ret tt
  | Some num =>
      try_except
        (q <- int_truediv 1 num ;; print (float_str q))
        ZeroDivisionError
        (fun _ => print "Cannot divide by 0!")
  end.

Definition SuperConfusingError : exc_class :=
  UserDefined "SuperConfusingError" Exception.

Definition imported_function (num : Z) : M Z :=
  if (num =? 3)%Z then
    raise (new_exn SuperConfusingError
      "According to the laws set down by the Padishah Emperor Shaddam IV, the number 3 is unacceptable as it attracts sand worms.")
  else ret (num * (num + 1) / 2)%Z.

(** [user_function(msg='Please enter a number')], and likewise the two
    functions after it. *)
Definition user_function (msg : string) : M Z :=
  line <- input (msg ++ ": ") ;;
  num <- int line ;;
  try_except (imported_function num) SuperConfusingError
    (fun e => raise_handling e (new_exn ValueError "3 is no good.")).

Definition less_confusing_user_function (msg : string) : M Z :=
  line <- input (msg ++ ": ") ;;
  num <- int line ;;
  try_except (imported_function num) SuperConfusingError
    (fun e =>
       raise_from_handling e (new_exn ValueError "3 is no good.")
                           (Some e)).

Definition clean_user_function (msg : string) : M Z :=
  line <- input (msg ++ ": ") ;;
  num <- int line ;;
  try_except (imported_function num) SuperConfusingError
    (fun e =>
       raise_from_handling e (new_exn ValueError "3 is no good.") None).

End Cells.

End ExceptionHandling.

(** ** A concrete host, to run the cells on *)

Module Demo.
Import Py.
Local Open Scope py_scope.

(** The objects the notebooks' own functions pass around. *)
Inductive object : Type :=
| ONone
| OInt (n : Z)
| OStr (s : string).

Definition int_str (z : Z) : string := NilZero.string_of_int (Z.to_int z).

Definition object_str (o : object) : string :=
  match o with
  | ONone => "None"
  | OInt n => int_str n
  | OStr s => s
  end.

(** Exact rationals stand in for floating-point numbers; they are shown
    as a reduced fraction. *)
Definition rational_str (q : QArith_base.Q) : string :=
  let r := Qreduction.Qred q in
  int_str (QArith_base.Qnum r) ++ "/" ++ int_str (Zpos (QArith_base.Qden r)).

#[export] Instance host : Host :=
  {| pyobj := object;
     str := object_str;
     float := QArith_base.Q;
     float_sub := fun a b => Qreduction.Qred (QArith_base.Qminus a b);
     float_str := rational_str;
     truediv := fun a b =>
       Qreduction.Qred
         (QArith_base.Qdiv (QArith_base.inject_Z a) (QArith_base.inject_Z b)) |}.

(** [time.sleep(secs)]: every later reading of the clock is [secs] later. *)
Definition time_sleep (secs : Z) : M unit :=
  fun w =>
    MkRun (Returned tt)
          {| stdin := stdin w;
             clock := fun n =>
               QArith_base.Qplus (clock w n) (QArith_base.inject_Z secs) |}
          [].

(** The binding of a call to a function that takes no parameters: a
    keyword is refused first, then a positional argument. *)
Definition no_parameters (name : string) (args : list object)
    (kwargs : list (string * object)) : M unit :=
  match kwargs, args with
  | (k, _) :: _, _ =>
      raise (new_exn TypeError
               (name ++ "() got an unexpected keyword argument '" ++ k ++ "'"))
  | [], [] => ret tt
  | [], [_] =>
      raise (new_exn TypeError
               (name ++ "() takes 0 positional arguments but 1 was given"))
  | [], _ =>
      raise (new_exn TypeError
               (name ++ "() takes 0 positional arguments but "
                  ++ int_str (Z.of_nat (List.length args)) ++ " were given"))
  end.

Definition returns_five_slowly : pyfunc :=
  {| __name__ := "returns_five_slowly";
     __qualname__ := "returns_five_slowly";
     __doc__ := None;
     __call__ := fun args kwargs =>
       no_parameters "returns_five_slowly" args kwargs ;;;
       time_sleep 2 ;;;
       ret (OInt 5) |}.

Definition does_nothing : pyfunc :=
  {| __name__ := "does_nothing";
     __qualname__ := "does_nothing";
     __doc__ := None;
     __call__ := fun args kwargs =>
       no_parameters "does_nothing" args kwargs ;;;
       ret ONone |}.

Definition sweep_the_floor : pyfunc :=
  {| __name__ := "sweep_the_floor";
     __qualname__ := "sweep_the_floor";
     __doc__ := None;
     __call__ := fun args kwargs =>
       no_parameters "sweep_the_floor" args kwargs ;;;
       print "Sweeping the floor" ;;;
       ret ONone |}.

Definition do_taxes : pyfunc :=
  {| __name__ := "do_taxes";
     __qualname__ := "do_taxes";
     __doc__ := None;
     __call__ := fun args kwargs =>
       no_parameters "do_taxes" args kwargs ;;;
       print "Doing your taxes" ;;;
       ret ONone |}.

(** [imported_function] as a function object, for calls that pass one
    integer as [num]; the wording of the [TypeError] of other calls is
    abridged. *)
Definition imported_function : pyfunc :=
  {| __name__ := "imported_function";
     __qualname__ := "imported_function";
     __doc__ := None;
     __call__ := fun args kwargs =>
       match args, kwargs with
       | [OInt num], [] | [], [("num", OInt num)] =>
           n <- ExceptionHandling.imported_function num ;; ret (OInt n)
       | _, _ =>
           raise (new_exn TypeError "imported_function() takes one integer")
       end |}.

(** [int(s)] on a string of ASCII characters: surrounding white space is
    dropped, a sign may lead, and single underscores may separate digits. *)
Definition is_space (c : ascii) : bool :=
  let n := nat_of_ascii c in
  ((9 <=? n) && (n <=? 13) || (28 <=? n) && (n <=? 32))%nat.

Fixpoint lstrip (s : string) : string :=
  match s with
  | String c rest => if is_space c then lstrip rest else s
  | EmptyString => s
  end.

Fixpoint rev_string (s acc : string) : string :=
  match s with
  | EmptyString => acc
  | String c rest => rev_string rest (String c acc)
  end.

Definition strip (s : string) : string :=
  rev_string (lstrip (rev_string (lstrip s) "")) "".

Definition digit_value (c : ascii) : option Z :=
  let n := nat_of_ascii c in
  if ((48 <=? n) && (n <=? 57))%nat then Some (Z.of_nat (n - 48)) else None.

Inductive last_seen : Type := Nothing | Digit | Underscore.

Fixpoint digits (s : string) (acc : Z) (prev : last_seen) : option Z :=
  match s with
  | EmptyString => match prev with Digit => Some acc | _ => None end
  | String c rest =>
      match digit_value c with
      | Some d => digits rest (10 * acc + d)%Z Digit
      | None =>
          if Ascii.eqb c "_"%char then
            match prev with
            | Digit => digits rest acc Underscore
            | _ => None
            end
          else None
      end
  end.

Definition parse_int (s : string) : option Z :=
  match strip s with
  | String "-" rest => option_map Z.opp (digits rest 0%Z Nothing)
  | String "+" rest => digits rest 0%Z Nothing
  | t => digits t 0%Z Nothing
  end.

Definition int (s : string) : M Z :=
  match parse_int s with
  | Some z => ret z
  | None =>
      raise (new_exn ValueError
               ("invalid literal for int() with base 10: '" ++ s ++ "'"))
  end.

(** A session in which the clock stands at 100 and [lines] are typed. *)
Definition session (lines : list string) : world :=
  {| stdin := lines; clock := fun _ => QArith_base.inject_Z 100 |}.

End Demo.

(** ** More statement forms, and the remaining cells *)

Module Statements.
Import Py.
Local Open Scope py_scope.

Section Forms.
Context `{Host}.

(** [str(n)] for an integer, as the notebook's interpreter (CPython
    3.8.16) has it: a conversion of more than 4300 digits is refused. *)
Definition max_str_digits : Z := 4300.

Definition str_int (n : Z) : M string :=
  if (10 ^ max_str_digits <=? Z.abs n)%Z then
    raise (new_exn ValueError
             "Exceeds the limit (4300) for integer string conversion")
  else ret (NilZero.string_of_int (Z.to_int n)).

(** The evaluation of a name that is bound nowhere. *)
Definition unbound_name {A} (name : string) : M A :=
  raise (new_exn NameError ("name '" ++ name ++ "' is not defined")).

(** [try: body / except: handler]: the bare clause catches everything. *)
Definition try_except_all {A} (body : M A) (handler : exn -> M A) : M A :=
  fun w =>
    let r := body w in
    match result r with
    | Returned a => r
    | Raised e =>
        let r' := handler e (after r) in
        MkRun (result r') (after r') (trace r ++ trace r')
    end.

(** The first clause of [except c1: ... except c2: ...] that names a class
    of the exception. *)
Fixpoint matching_clause {A} (e : exn)
    (clauses : list (exc_class * (exn -> M A))) : option (exn -> M A) :=
  match clauses with
  | [] => None
  | (cls, handler) :: rest =>
      if isinstance e cls then Some handler else matching_clause e rest
  end.

(** [try: body] followed by several [except] clauses. *)
Definition try_except_clauses {A} (body : M A)
    (clauses : list (exc_class * (exn -> M A))) : M A :=
  fun w =>
    let r := body w in
    match result r with
    | Returned a => r
    | Raised e =>
        match matching_clause e clauses with
        | Some handler =>
            let r' := handler e (after r) in
            MkRun (result r') (after r') (trace r ++ trace r')
        | None => r
        end
    end.

(** [try: body / except cls: handler / else: orelse]: the [else] block
    runs when the body raised nothing, outside the reach of the clause. *)
Definition try_except_else {A B} (body : M A) (cls : exc_class)
    (handler : exn -> M B) (orelse : A -> M B) : M B :=
  fun w =>
    let r := body w in
    match result r with
    | Returned a =>
        let r' := orelse a (after r) in
        MkRun (result r') (after r') (trace r ++ trace r')
    | Raised e =>
        if isinstance e cls then
          let r' := handler e (after r) in
          MkRun (result r') (after r') (trace r ++ trace r')
        else MkRun (Raised e) (after r) (trace r)
    end.

(** [try: body / finally: final], for a [final] block without [return]:
    it runs however the body ended, and the body's end stands unless the
    block itself raises. *)
Definition try_finally {A} (body : M A) (final : M unit) : M A :=
  fun w =>
    let r := body w in
    let r' := final (after r) in
    match result r' with
    | Returned _ => MkRun (result r) (after r') (trace r ++ trace r')
    | Raised e' =>
        MkRun (Raised (match result r with
                       | Raised e => set_context (Some e) e'
                       | Returned _ => e'
                       end))
              (after r') (trace r ++ trace r')
    end.


End Forms.

End Statements.

Module DecoratorCells.
Import Py Decorators.
Local Open Scope py_scope.

Section Cells.
Context `{Host}.

Definition describe_as_simple (func : pyfunc) : pyfunc :=
  wraps func
    {| __name__ := "new_func";
       __qualname__ := "describe_as_simple.<locals>.new_func";
       __doc__ := None;
       __call__ := fun args kwargs =>
         print (__name__ func ++ " is a simple function.") ;;;
         call func args kwargs |}.







End Cells.

End DecoratorCells.

Module ExceptionCells.
Import Py Statements ExceptionHandling.
Local Open Scope py_scope.

Section Cells.
Context `{Host}.

Variable input : string -> M string.
Variable int : string -> M Z.

(** [reciprocal(msg='Enter a number')] *)
Definition reciprocal (msg : string) : M unit :=
  line <- input (msg ++ ": ") ;;
  num <- int line ;;
  q <- int_truediv 1 num ;;
  print (float_str q).

Definition reciprocal2 (msg : string) : M unit :=
  try_except_all
    (line <- input (msg ++ ": ") ;;
     num <- int line ;;
     q <- int_truediv 1 num ;;
     print (float_str q))
    (fun _ => print "Invalid input!").

(** [nun] is bound nowhere in the notebook. *)
Definition bad_reciprocal (msg : string) : M unit :=
  try_except_all
    (line <- input (msg ++ ": ") ;;
     num <- int line ;;
     nun <- unbound_name "nun" ;;
     q <- int_truediv 1 nun ;;
     print (float_str q))
    (fun _ => print "Invalid input!").

Definition less_bad_reciprocal (msg : string) : M unit :=
  try_except_clauses
    (line <- input (msg ++ ": ") ;;
     num <- int line ;;
     nun <- unbound_name "nun" ;;
     q <- int_truediv 1 nun ;;
     print (float_str q))
    [(ValueError, fun _ => print "Invalid input!");
     (ZeroDivisionError, fun _ => print "Cannot divide by 0!")].

(** The [return] inside the clause is the [false] the first statement
    yields. *)
Definition enter_a_number : M unit :=
  go_on <- try_except
             (line <- input "Enter a number: " ;;
              _ <- int line ;;
              ret true)
             ValueError
             (fun _ => print "That's not a number!" ;;; ret false) ;;
  if go_on : bool then print "Yup!  That's a number all right." else ret tt.

Definition better_enter_a_number : M unit :=
  try_except_else
    (line <- input "Enter a number: " ;; int line)
    ValueError
    (fun _ => print "That's not a number!")
    (fun _ => print "Yup!  That's a number all right.").

(** The conversion [{num * 2}] of the f-string, a built-in like [input]
    and [int]. *)
Variable format_int : Z -> M string.

Definition end_with_a_bow : M unit :=
  try_finally
    (line <- input "Enter a number: " ;;
     num <- int line ;;
     double <- format_int (num * 2) ;;
     print ("Your number is half of " ++ double ++ "."))
    (print "That's all, folks!").

End Cells.

End ExceptionCells.

(** * Properties *)

Import Py.
Local Open Scope py_scope.

(** ** The monad and the exception model *)

Section RuntimeFacts.
Context `{Host}.

Lemma bind_returned {A B} (m : M A) (k : A -> M B) w a :
  result (m w) = Returned a ->
  bind m k w =
    MkRun (result (k a (after (m w)))) (after (k a (after (m w))))
          (trace (m w) ++ trace (k a (after (m w)))).
Proof. intros Hm. unfold bind. rewrite Hm. reflexivity. Qed.

Lemma bind_raised {A B} (m : M A) (k : A -> M B) w e :
  result (m w) = Raised e ->
  bind m k w = MkRun (Raised e) (after (m w)) (trace (m w)).
Proof. intros Hm. unfold bind. rewrite Hm. reflexivity. Qed.

(** An exception the clause does not name passes through [try_except]. *)
Lemma try_except_passes {A} (body : M A) cls handler w e :
  result (body w) = Raised e ->
  isinstance e cls = false ->
  try_except body cls handler w = body w.
Proof.
  intros Hb Hc. unfold try_except. rewrite Hb, Hc. reflexivity.
Qed.

Lemma try_except_catches {A} (body : M A) cls handler w e :
  result (body w) = Raised e ->
  isinstance e cls = true ->
  try_except body cls handler w =
    MkRun (result (handler e (after (body w))))
          (after (handler e (after (body w))))
          (trace (body w) ++ trace (handler e (after (body w)))).
Proof.
  intros Hb Hc. unfold try_except. rewrite Hb, Hc. reflexivity.
Qed.

Lemma try_except_returned {A} (body : M A) cls handler w a :
  result (body w) = Returned a ->
  try_except body cls handler w = body w.
Proof. intros Hb. unfold try_except. rewrite Hb. reflexivity. Qed.

Lemma issubclass_refl c : issubclass c c = true.
Proof.
  unfold issubclass.
  assert (Hhd : exists l, mro c = c :: l) by (destruct c; simpl; eauto).
  destruct Hhd as [l ->]. simpl. unfold exc_class_eqb.
  destruct (exc_class_eq_dec c c); [reflexivity | contradiction].
Qed.

(** The three checks the last cell of the exceptions notebook prints. *)
Example exception_hierarchy :
  issubclass Exception BaseException = true /\
  issubclass SystemExit Exception = false /\
  issubclass SystemExit BaseException = true.
Proof. repeat split; reflexivity. Qed.

(** What calling a function object amounts to. *)
Lemma call_run (f : pyfunc) args kwargs w :
  call f args kwargs w =
    MkRun (result (__call__ f args kwargs w))
          (after (__call__ f args kwargs w))
          (Call (__name__ f) args kwargs :: trace (__call__ f args kwargs w)).
Proof. reflexivity. Qed.

End RuntimeFacts.

(** ** decorators.ipynb: [timer] and [log_result] *)

Section TimerFacts.
Import Decorators.
Context `{Host}.

(** The wrapper's run in terms of the one run of [func] inside it. *)
Lemma timer_code_run (func : pyfunc) args kwargs w :
  let inner := call func args kwargs (after (time_time w)) in
  __call__ (timer func) args kwargs w =
    match result inner with
    | Raised e => MkRun (Raised e) (after inner) (trace inner)
    | Returned v =>
        MkRun (Returned v) (after (time_time (after inner)))
              (trace inner
                 ++ [Write (timer_line func (clock w 0)
                                       (clock (after inner) 0))])
    end.
Proof.
  intros inner. subst inner.
  unfold timer, wraps, timer_plain, timer_line, call, bind, emit, print, ret,
    time_time.
  cbn [__call__ result after trace app].
  destruct (__call__ func args kwargs _) as [[v | e] w2 tr];
    cbn [result after trace app clock stdin]; [ | reflexivity ].
  rewrite app_nil_r. reflexivity.
Qed.

Lemma log_result_code_run (func : pyfunc) args kwargs w :
  let inner := call func args kwargs w in
  __call__ (log_result func) args kwargs w =
    match result inner with
    | Raised e => MkRun (Raised e) (after inner) (trace inner)
    | Returned v =>
        MkRun (Returned v) (after inner)
              (trace inner ++ [Write (log_result_line func v)])
    end.
Proof.
  intros inner. subst inner.
  unfold log_result, wraps, log_result_plain, log_result_line, call, bind,
    emit, print, ret.
  cbn [__call__ result after trace app].
  destruct (__call__ func args kwargs _) as [[v | e] w2 tr];
    cbn [result after trace app]; [ | reflexivity ].
  rewrite app_nil_r. reflexivity.
Qed.

(** C1. Calling the callable returned by [timer func] with any positional
    and keyword arguments invokes [func] exactly once, with those same
    arguments, and returns the value [func] returned: the run consists of
    the entry into the wrapper, the one call of [func], whatever [func]
    itself does, and the printed duration; the clock is read once before
    and once after. *)
Theorem timer_calls_func_once_and_returns_its_value
    (func : pyfunc) args kwargs w v :
  let body := __call__ func args kwargs (after (time_time w)) in
  result body = Returned v ->
  let r := call (timer func) args kwargs w in
  result r = Returned v /\
  trace r =
    Call (__name__ (timer func)) args kwargs
      :: Call (__name__ func) args kwargs
      :: trace body
      ++ [Write (timer_line func (clock w 0) (clock (after body) 0))] /\
  calls_made (trace r) = 2 + calls_made (trace body) /\
  after r = after (time_time (after body)).
Proof.
  intros body Hbody r.
  assert (Hr : r =
    MkRun (Returned v) (after (time_time (after body)))
      (Call (__name__ (timer func)) args kwargs
         :: Call (__name__ func) args kwargs
         :: trace body
         ++ [Write (timer_line func (clock w 0) (clock (after body) 0))])).
  { subst r. rewrite call_run, timer_code_run. cbv zeta.
    rewrite call_run. cbn [result after trace]. fold body.
    rewrite Hbody. reflexivity. }
  rewrite Hr. cbn [result after trace]. repeat split.
  unfold calls_made. cbn [filter is_call length].
  rewrite filter_app, length_app. cbn [filter is_call length]. lia.
Qed.

(** C2. The wrapper handles nothing: when [func] raises, the call of the
    wrapper raises that same exception, stops where [func] stopped, and
    writes nothing after what [func] wrote, so no duration is reported
    and no value is returned in its place. *)
Theorem timer_propagates_exception (func : pyfunc) args kwargs w e :
  let body := __call__ func args kwargs (after (time_time w)) in
  result body = Raised e ->
  let r := call (timer func) args kwargs w in
  result r = Raised e /\
  trace r =
    Call (__name__ (timer func)) args kwargs
      :: Call (__name__ func) args kwargs :: trace body /\
  (forall text, In (Write text) (trace r) -> In (Write text) (trace body)) /\
  after r = after body.
Proof.
  intros body Hbody r.
  assert (Hr : r =
    MkRun (Raised e) (after body)
      (Call (__name__ (timer func)) args kwargs
         :: Call (__name__ func) args kwargs :: trace body)).
  { subst r. rewrite call_run, timer_code_run. cbv zeta.
    rewrite call_run. cbn [result after trace]. fold body.
    rewrite Hbody. reflexivity. }
  rewrite Hr. cbn [result after trace]. repeat split.
  intros text [Hin | [Hin | Hin]]; [discriminate | discriminate | exact Hin].
Qed.

(** X4. The first definitions, stacked: [timer]'s line names the inner
    wrapper, [new_func], as the notebook observes. *)
Lemma plain_stack_reports_new_func (func : pyfunc) args kwargs w v :
  let body := __call__ func args kwargs (after (time_time w)) in
  result body = Returned v ->
  trace (call (timer_plain (log_result_plain func)) args kwargs w) =
    Call "new_func" args kwargs
      :: Call "new_func" args kwargs
      :: Call (__name__ func) args kwargs
      :: trace body
      ++ [Write (log_result_line func v);
          Write (("Running new_func took "
                    ++ float_str (float_sub (clock (after body) 0) (clock w 0))
                    ++ " seconds.") ++ newline)].
Proof.
  intros body Hbody.
  rewrite call_run.
  change (__call__ (timer_plain (log_result_plain func)))
    with (__call__ (timer (log_result_plain func))).
  rewrite timer_code_run. cbv zeta.
  rewrite call_run.
  change (__call__ (log_result_plain func))
    with (__call__ (log_result func)).
  rewrite log_result_code_run. cbv zeta.
  rewrite call_run. cbn [result after trace]. fold body.
  rewrite Hbody. cbn [result after trace].
  unfold timer_line. cbn [__name__ log_result_plain app].
  rewrite <- app_assoc. reflexivity.
Qed.

(** C4. With [functools.wraps] the wrappers carry the name of the function
    they wrap, so when [timer] is stacked on [log_result] both printed
    lines name the original function. *)
Theorem wrappers_keep_the_name (func : pyfunc) :
  __name__ (timer func) = __name__ func /\
  __name__ (log_result func) = __name__ func /\
  forall args kwargs w v,
    let body := __call__ func args kwargs (after (time_time w)) in
    result body = Returned v ->
    trace (call (timer (log_result func)) args kwargs w) =
      Call (__name__ func) args kwargs
        :: Call (__name__ func) args kwargs
        :: Call (__name__ func) args kwargs
        :: trace body
        ++ [Write (log_result_line func v);
            Write (timer_line func (clock w 0) (clock (after body) 0))].
Proof.
  split; [reflexivity | split; [reflexivity | ]].
  intros args kwargs w v body Hbody.
  rewrite call_run, timer_code_run. cbv zeta.
  rewrite call_run, log_result_code_run. cbv zeta.
  rewrite call_run. cbn [result after trace]. fold body.
  rewrite Hbody. cbn [result after trace].
  unfold timer_line. cbn [__name__ log_result wraps app].
  rewrite <- app_assoc. reflexivity.
Qed.

End TimerFacts.

(** ** decorators.ipynb: [describe_as] *)

Section DescribeAsFacts.
Import Decorators.
Context `{Host}.

Lemma article_for_first (c : ascii) :
  (if str_in (String c EmptyString) ["a"; "e"; "i"; "o"; "u"]
   then "an" else "a") = article_for c.
Proof.
  unfold str_in, article_for. cbn [existsb String.eqb].
  repeat match goal with
         | |- context [if Ascii.eqb ?a ?b then _ else false] =>
             destruct (Ascii.eqb a b)
         end; reflexivity.
Qed.

Lemma describe_as_nonempty (c : ascii) (rest : string) w :
  describe_as (String c rest) w =
    MkRun (Returned (decorator (article_for c) (String c rest))) w [].
Proof.
  unfold describe_as, str_getitem, bind, ret. cbn.
  rewrite <- article_for_first. reflexivity.
Qed.

Lemma decorator_call (article adjective : string) (func : pyfunc)
    args kwargs w :
  let inner := call func args kwargs w in
  call (decorator article adjective func) args kwargs w =
    MkRun (result inner) (after inner)
          (Call (__name__ func) args kwargs
             :: Write (describe_as_line func article adjective)
             :: trace inner).
Proof. reflexivity. Qed.

(** C9. [describe_as('')] raises [IndexError] and returns no decorator,
    because [adjective[0]] is evaluated at once; on every non-empty
    adjective the factory returns a decorator and raises nothing. *)
Theorem describe_as_raises_only_on_empty :
  (forall w,
     describe_as "" w =
       MkRun (Raised (new_exn IndexError "string index out of range")) w []) /\
  (forall c rest w,
     exists d, describe_as (String c rest) w = MkRun (Returned d) w []).
Proof.
  split.
  - intros w. reflexivity.
  - intros c rest w. eexists. apply describe_as_nonempty.
Qed.

(** C3, amended. For every non-empty adjective, [describe_as] returns a
    decorator whose wrapper, called with any arguments, first prints
    [{func.__name__} is {article} {adjective} function.], where the
    article is [an] when the first character of the adjective is one of
    the lower-case letters a, e, i, o, u and [a] otherwise, and only then
    calls [func] with the same arguments; the call ends as the call of
    [func] ends. *)
Theorem describe_as_prints_then_delegates (c : ascii) (rest : string) w :
  exists d,
    describe_as (String c rest) w = MkRun (Returned d) w [] /\
    forall (func : pyfunc) args kwargs w',
      let inner := call func args kwargs w' in
      __name__ (d func) = __name__ func /\
      call (d func) args kwargs w' =
        MkRun (result inner) (after inner)
              (Call (__name__ func) args kwargs
                 :: Write (describe_as_line func (article_for c)
                                            (String c rest))
                 :: trace inner) /\
      hd_error (trace inner) = Some (Call (__name__ func) args kwargs).
Proof.
  exists (decorator (article_for c) (String c rest)). split.
  - apply describe_as_nonempty.
  - intros func args kwargs w' inner. split; [reflexivity | split].
    + apply decorator_call.
    + subst inner. rewrite call_run. reflexivity.
Qed.

End DescribeAsFacts.

(** ** decorators.ipynb: the robot *)

Section RobotFacts.
Import Decorators.
Context `{Host}.

Lemma dict_get_setitem_same (d : dict) k v :
  dict_get (dict_setitem d k v) k = Some v.
Proof.
  induction d as [| [k' v'] d IH]; cbn.
  - rewrite String.eqb_refl. reflexivity.
  - destruct (String.eqb k k') eqn:E; cbn; rewrite E; [reflexivity | exact IH].
Qed.

Lemma dict_get_setitem_other (d : dict) k v name :
  name <> k ->
  dict_get (dict_setitem d k v) name = dict_get d name.
Proof.
  intros Hne. induction d as [| [k' v'] d IH]; cbn.
  - apply String.eqb_neq in Hne. rewrite Hne. reflexivity.
  - destruct (String.eqb k k') eqn:E; cbn.
    + apply String.eqb_eq in E. subst k'.
      apply String.eqb_neq in Hne. rewrite Hne. reflexivity.
    + destruct (String.eqb name k'); [reflexivity | exact IH].
Qed.

Lemma dict_keys_setitem (d : dict) k v :
  map fst (dict_setitem d k v) =
    if str_in k (map fst d) then map fst d else (map fst d ++ [k])%list.
Proof.
  unfold str_in. induction d as [| [k' v'] d IH]; cbn.
  - reflexivity.
  - destruct (String.eqb k k') eqn:E; cbn; [reflexivity | ].
    rewrite IH. destruct (existsb (String.eqb k) (map fst d)); reflexivity.
Qed.

Lemma str_in_In (x : string) (t : list string) :
  str_in x t = true <-> In x t.
Proof.
  unfold str_in. rewrite existsb_exists. split.
  - intros [y [Hy E]]. apply String.eqb_eq in E. subst y. exact Hy.
  - intros Hx. exists x. split; [exact Hx | apply String.eqb_refl].
Qed.

(** C10. [register_command] returns its argument itself, and all it does
    to the robot is to set the entry of the registry under [f.__name__]
    to [f]: every other entry is as before, and [list_commands] reports
    the name, in its old place if it was present and last otherwise. *)
Theorem register_command_returns_its_argument (self : Robot) (func : pyfunc) :
  let self' := fst (register_command self func) in
  snd (register_command self func) = func /\
  dict_get (commands self') (__name__ func) = Some func /\
  (forall name, name <> __name__ func ->
     dict_get (commands self') name = dict_get (commands self) name) /\
  list_commands self' =
    (if str_in (__name__ func) (list_commands self)
     then list_commands self
     else (list_commands self ++ [__name__ func])%list) /\
  In (__name__ func) (list_commands self').
Proof.
  cbn. repeat split.
  - apply dict_get_setitem_same.
  - intros name Hne. apply dict_get_setitem_other. exact Hne.
  - apply dict_keys_setitem.
  - unfold list_commands. cbn. rewrite dict_keys_setitem.
    destruct (str_in (__name__ func) (map fst (commands self))) eqn:E.
    + apply str_in_In. exact E.
    + apply in_or_app. right. left. reflexivity.
Qed.

Lemma find_snoc {A} (p : A -> bool) (l : list A) (x : A) :
  find p (l ++ [x]) =
    match find p l with
    | Some y => Some y
    | None => if p x then Some x else None
    end.
Proof.
  induction l as [| y l IH]; cbn.
  - reflexivity.
  - destruct (p y); [reflexivity | exact IH].
Qed.

(** The registry after a series of registrations holds, under each name,
    the function registered last under it. *)
Lemma registry_after_registrations (fs : list pyfunc) (self : Robot) name :
  dict_get (commands (register_all self fs)) name =
    match last_registered name fs with
    | Some f => Some f
    | None => dict_get (commands self) name
    end.
Proof.
  unfold register_all, last_registered. revert self.
  induction fs as [| f fs IH]; intros self; cbn [fold_left rev].
  - reflexivity.
  - rewrite IH, find_snoc.
    destruct (find _ (rev fs)) as [g |]; [reflexivity | ].
    cbn [register_command fst commands].
    destruct (String.eqb name (__name__ f)) eqn:E.
    + apply String.eqb_eq in E. subst name. apply dict_get_setitem_same.
    + apply String.eqb_neq in E. apply dict_get_setitem_other. exact E.
Qed.

(** No name is listed twice, however often it is registered. *)
Lemma list_commands_nodup (fs : list pyfunc) (self : Robot) :
  NoDup (list_commands self) ->
  NoDup (list_commands (register_all self fs)).
Proof.
  unfold register_all. revert self.
  induction fs as [| f fs IH]; intros self Hnd; cbn [fold_left].
  - exact Hnd.
  - apply IH. unfold list_commands. cbn [register_command fst commands].
    rewrite dict_keys_setitem.
    destruct (str_in (__name__ f) (map fst (commands self))) eqn:E.
    + exact Hnd.
    + apply NoDup_app; [exact Hnd | repeat constructor; intros [] | ].
      intros x Hx [<- | []].
      apply str_in_In in Hx. unfold list_commands in *. congruence.
Qed.

Lemma getattr_falls_back (self : Robot) (name : string) w :
  explicit_attribute self name = None ->
  getattr self name w =
    match dict_get (commands self) name with
    | Some f => MkRun (Returned (Command f)) w []
    | None => MkRun (Raised (new_exn InvalidCommand name)) w []
    end.
Proof.
  intros Hex. unfold getattr, __getattr__. rewrite Hex.
  destruct (dict_get (commands self) name); reflexivity.
Qed.

(** C7. On a robot, an attribute name that the ordinary lookup does not
    find yields the function registered (last) under that name with
    [register_command], and raises [InvalidCommand(name)] when no function
    was registered under it. *)
Theorem getattr_yields_registered_command (fs : list pyfunc)
    (name : string) w :
  let robot := register_all Robot_init fs in
  explicit_attribute robot name = None ->
  getattr robot name w =
    match last_registered name fs with
    | Some f => MkRun (Returned (Command f)) w []
    | None => MkRun (Raised (new_exn InvalidCommand name)) w []
    end.
Proof.
  intros robot Hex. rewrite (getattr_falls_back robot name w Hex).
  unfold robot. rewrite registry_after_registrations.
  destruct (last_registered name fs); reflexivity.
Qed.

End RobotFacts.

(** ** The exception-handling notebook *)

Section ExceptionFacts.
Import ExceptionHandling.
Context `{Host}.
Variable input : string -> M string.
Variable int : string -> M Z.

(** The first [try] block of [good_reciprocal] is the reading of a number
    with the result wrapped. *)
Lemma read_then_some (msg : string) w :
  (line <- input (msg ++ ": ") ;; num <- int line ;; ret (Some num)) w =
    let rd := read_number input int msg w in
    MkRun (match result rd with
           | Returned num => Returned (Some num)
           | Raised e => Raised e
           end)
          (after rd) (trace rd).
Proof.
  unfold read_number, bind, ret.
  destruct (input (msg ++ ": ") w) as [[line | e] w1 t1];
    cbn [result after trace]; [ | reflexivity ].
  destruct (int line w1) as [[num | e] w2 t2]; cbn [result after trace].
  - rewrite app_nil_r. reflexivity.
  - reflexivity.
Qed.

Lemma first_try_run (msg : string) w :
  let rd := read_number input int msg w in
  try_except
    (line <- input (msg ++ ": ") ;; num <- int line ;; ret (Some num))
    ValueError
    (fun _ => print "Invalid input!" ;;; ret None) w =
  match result rd with
  | Returned num => MkRun (Returned (Some num)) (after rd) (trace rd)
  | Raised e =>
      if isinstance e ValueError then
        MkRun (Returned None) (after rd)
              (trace rd ++ [Write ("Invalid input!" ++ newline)])
      else MkRun (Raised e) (after rd) (trace rd)
  end.
Proof.
  intros rd. unfold try_except. rewrite read_then_some. cbv zeta. fold rd.
  cbn [result after trace].
  destruct (result rd) as [num | e]; [reflexivity | ].
  destruct (isinstance e ValueError); reflexivity.
Qed.

Lemma int_truediv_run (a b : Z) w :
  int_truediv a b w =
    if (b =? 0)%Z then
      MkRun (Raised (new_exn ZeroDivisionError "division by zero")) w []
    else MkRun (Returned (truediv a b)) w [].
Proof. unfold int_truediv. destruct (b =? 0)%Z; reflexivity. Qed.

(** The second [try] statement of [good_reciprocal]. *)
Lemma second_try_run (num : Z) w :
  try_except (q <- int_truediv 1 num ;; print (float_str q))
             ZeroDivisionError
             (fun _ => print "Cannot divide by 0!") w =
    MkRun (Returned tt) w
          [Write (if (num =? 0)%Z then "Cannot divide by 0!" ++ newline
                  else float_str (truediv 1 num) ++ newline)].
Proof.
  unfold try_except, bind, int_truediv, print, emit, ret.
  destruct (num =? 0)%Z; reflexivity.
Qed.

(** C8. [good_reciprocal] catches [ValueError] around the reading of the
    number only, and [ZeroDivisionError] around the division only: a
    [ValueError] from the reading prints [Invalid input!] and ends the
    call there, before any division; any other exception from the reading
    leaves the function as it was raised; once a number is read, the
    division raises nothing but [ZeroDivisionError], which prints
    [Cannot divide by 0!], and otherwise its quotient is printed. *)
Theorem good_reciprocal_catches_only_what_it_expects (msg : string) w :
  let rd := read_number input int msg w in
  (forall e, result rd = Raised e -> isinstance e ValueError = true ->
     good_reciprocal input int msg w =
       MkRun (Returned tt) (after rd)
             (trace rd ++ [Write ("Invalid input!" ++ newline)])) /\
  (forall e, result rd = Raised e -> isinstance e ValueError = false ->
     good_reciprocal input int msg w = MkRun (Raised e) (after rd) (trace rd)) /\
  (forall num, result rd = Returned num ->
     let division := int_truediv 1 num (after rd) in
     (forall e, result division = Raised e ->
        num = 0%Z /\
        exc_type e = ZeroDivisionError /\
        good_reciprocal input int msg w =
          MkRun (Returned tt) (after rd)
                (trace rd ++ [Write ("Cannot divide by 0!" ++ newline)])) /\
     (forall q, result division = Returned q ->
        num <> 0%Z /\
        good_reciprocal input int msg w =
          MkRun (Returned tt) (after rd)
                (trace rd ++ [Write (float_str q ++ newline)]))).
Proof.
  intros rd.
  assert (Hfirst := first_try_run msg w). cbv zeta in Hfirst. fold rd in Hfirst.
  unfold good_reciprocal.
  split; [ | split ].
  - intros e Hrd Hinst. rewrite Hrd, Hinst in Hfirst.
    rewrite (bind_returned _ _ w None) by (rewrite Hfirst; reflexivity).
    rewrite Hfirst. cbn [result after trace ret].
    rewrite app_nil_r. reflexivity.
  - intros e Hrd Hinst. rewrite Hrd, Hinst in Hfirst.
    rewrite (bind_raised _ _ w e) by (rewrite Hfirst; reflexivity).
    rewrite Hfirst. reflexivity.
  - intros num Hrd. rewrite Hrd in Hfirst.
    rewrite (bind_returned _ _ w (Some num)) by (rewrite Hfirst; reflexivity).
    rewrite Hfirst. cbn [result after trace].
    rewrite second_try_run, int_truediv_run.
    destruct (num =? 0)%Z eqn:Hz; cbn [result after trace]; split.
    + intros e [= <-]. apply Z.eqb_eq in Hz. repeat split; assumption.
    + intros q Hq. discriminate Hq.
    + intros e He. discriminate He.
    + intros q [= <-]. apply Z.eqb_neq in Hz. split; [exact Hz | reflexivity].
Qed.

Lemma imported_function_run (num : Z) w :
  imported_function num w =
    if (num =? 3)%Z then
      MkRun (Raised (new_exn SuperConfusingError
        "According to the laws set down by the Padishah Emperor Shaddam IV, the number 3 is unacceptable as it attracts sand worms."))
        w []
    else MkRun (Returned (num * (num + 1) / 2)%Z) w [].
Proof.
  unfold imported_function. destruct (num =? 3)%Z; reflexivity.
Qed.

(** What the three user functions share: the number is read, and
    [imported_function] is tried on it. *)
Lemma translate_on_three (handler : exn -> M Z) (msg : string) w :
  result (read_number input int msg w) = Returned 3%Z ->
  let rd := read_number input int msg w in
  exists original,
    result (imported_function 3 (after rd)) = Raised original /\
    exc_type original = SuperConfusingError /\
    (line <- input (msg ++ ": ") ;;
     num <- int line ;;
     try_except (imported_function num) SuperConfusingError handler) w =
      MkRun (result (handler original (after rd)))
            (after (handler original (after rd)))
            (trace rd ++ trace (handler original (after rd))).
Proof.
  intros Hrd rd. eexists. split; [ | split ].
  - rewrite imported_function_run. reflexivity.
  - reflexivity.
  - revert Hrd. subst rd. unfold read_number, bind.
    destruct (input (msg ++ ": ") w) as [[line | e] w1 t1];
      cbn [result after trace]; [ | discriminate ].
    destruct (int line w1) as [[num | e] w2 t2]; cbn [result after trace];
      [ | discriminate ].
    intros [= ->]. unfold try_except. rewrite imported_function_run.
    cbn. rewrite <- app_assoc. reflexivity.
Qed.

(** C5. [imported_function] raises [SuperConfusingError] exactly on 3 and
    otherwise returns [num * (num + 1) // 2]; when it raises,
    [less_confusing_user_function] raises [ValueError('3 is no good.')]
    whose [__cause__] is the exception [imported_function] raised. *)
Theorem less_confusing_chains_the_cause :
  (forall num w,
     (exists e, result (imported_function num w) = Raised e /\
                exc_type e = SuperConfusingError) <-> num = 3%Z) /\
  (forall num w, num <> 3%Z ->
     imported_function num w = MkRun (Returned (num * (num + 1) / 2)%Z) w []) /\
  (forall msg w,
     result (read_number input int msg w) = Returned 3%Z ->
     let rd := read_number input int msg w in
     exists original e,
       result (imported_function 3 (after rd)) = Raised original /\
       exc_type original = SuperConfusingError /\
       less_confusing_user_function input int msg w = MkRun (Raised e) (after rd) (trace rd) /\
       exc_type e = ValueError /\
       args e = ["3 is no good."] /\
       __cause__ e = Some original).
Proof.
  split; [ | split ].
  - intros num w. rewrite imported_function_run. split.
    + intros [e [He _]]. destruct (num =? 3)%Z eqn:E.
      * apply Z.eqb_eq. exact E.
      * discriminate.
    + intros ->. eexists. split; reflexivity.
  - intros num w Hne. rewrite imported_function_run.
    apply Z.eqb_neq in Hne. rewrite Hne. reflexivity.
  - intros msg w Hrd rd.
    destruct (translate_on_three
                (fun e => raise_from_handling e
                            (new_exn ValueError "3 is no good.") (Some e))
                msg w Hrd) as [original [Hraise [Hcls Hrun]]].
    exists original. eexists. split; [exact Hraise | split; [exact Hcls | ]].
    split.
    + unfold less_confusing_user_function.
      rewrite Hrun. fold rd. cbn. rewrite app_nil_r. reflexivity.
    + repeat split.
Qed.

(** C6, amended. When [imported_function] raises, [clean_user_function]
    raises [ValueError('3 is no good.')] with the cause suppressed:
    [raise ... from None] leaves [__cause__] empty and marks the context
    as suppressed, so the original [SuperConfusingError] is not reported
    with the [ValueError]; it stays attached to it only as the hidden
    [__context__]. *)
Theorem clean_user_function_suppresses_the_cause (msg : string) w :
  result (read_number input int msg w) = Returned 3%Z ->
  let rd := read_number input int msg w in
  exists original e,
    result (imported_function 3 (after rd)) = Raised original /\
    exc_type original = SuperConfusingError /\
    clean_user_function input int msg w = MkRun (Raised e) (after rd) (trace rd) /\
    exc_type e = ValueError /\
    args e = ["3 is no good."] /\
    __cause__ e = None /\
    __suppress_context__ e = true /\
    reported_predecessor e = None /\
    __context__ e = Some original.
Proof.
  intros Hrd rd.
  destruct (translate_on_three
              (fun e => raise_from_handling e
                          (new_exn ValueError "3 is no good.") None)
              msg w Hrd) as [original [Hraise [Hcls Hrun]]].
  exists original. eexists.
  split; [exact Hraise | split; [exact Hcls | split]].
  - unfold clean_user_function.
    rewrite Hrun. fold rd. cbn. rewrite app_nil_r. reflexivity.
  - repeat split.
Qed.

(** X15. The first [user_function], on 3: the plain [raise] in the handler
    raises [ValueError('3 is no good.')] with no cause and with the
    [SuperConfusingError] of [imported_function] as its context, not
    suppressed, so the original is reported before it. *)
Lemma user_function_keeps_the_context (msg : string) w :
  result (read_number input int msg w) = Returned 3%Z ->
  let rd := read_number input int msg w in
  exists original e,
    result (imported_function 3 (after rd)) = Raised original /\
    exc_type original = SuperConfusingError /\
    user_function input int msg w = MkRun (Raised e) (after rd) (trace rd) /\
    exc_type e = ValueError /\
    args e = ["3 is no good."] /\
    __cause__ e = None /\
    __context__ e = Some original /\
    __suppress_context__ e = false /\
    reported_predecessor e = Some original.
Proof.
  intros Hrd rd.
  destruct (translate_on_three
              (fun e => raise_handling e (new_exn ValueError "3 is no good."))
              msg w Hrd) as [original [Hraise [Hcls Hrun]]].
  exists original. eexists.
  split; [exact Hraise | split; [exact Hcls | split]].
  - unfold user_function.
    rewrite Hrun. fold rd. cbn. rewrite app_nil_r. reflexivity.
  - repeat split.
Qed.

End ExceptionFacts.

(** ** The cells run on the concrete host *)

Module Runs.
Import Decorators ExceptionHandling Demo.

(** [timer(returns_five_slowly)()], the clock advancing by the two seconds
    slept. *)
Lemma timer_returns_five :
  result (__call__ returns_five_slowly [] [] (after (time_time (session []))))
    = Returned (OInt 5) /\
  result (call (timer returns_five_slowly) [] [] (session []))
    = Returned (OInt 5) /\
  trace (call (timer returns_five_slowly) [] [] (session [])) =
    [Call "returns_five_slowly" [] [];
     Call "returns_five_slowly" [] [];
     Write ("Running returns_five_slowly took 2/1 seconds." ++ newline)].
Proof.
  split; [reflexivity | ].
  destruct (timer_calls_func_once_and_returns_its_value
              returns_five_slowly [] [] (session []) (OInt 5) eq_refl)
    as [Hres [Htr _]].
  split; [exact Hres | exact Htr].
Defined.

(** [timer(imported_function)(3)]: the exception comes out, nothing is
    printed. *)
Lemma timer_lets_the_error_out :
  exists e,
    result (__call__ imported_function [OInt 3] []
              (after (time_time (session [])))) = Raised e /\
    exc_type e = SuperConfusingError /\
    result (call (timer imported_function) [OInt 3] [] (session []))
      = Raised e /\
    trace (call (timer imported_function) [OInt 3] [] (session [])) =
      [Call "imported_function" [OInt 3] [];
       Call "imported_function" [OInt 3] []].
Proof.
  eexists. split; [reflexivity | split; [reflexivity | ]].
  destruct (timer_propagates_exception
              imported_function [OInt 3] [] (session []) _ eq_refl)
    as [Hres [Htr _]].
  split; [exact Hres | exact Htr].
Defined.

(** [@timer @log_result def returns_five_slowly] *)
Lemma stacked_lines_name_the_function :
  trace (call (timer (log_result returns_five_slowly)) [] [] (session [])) =
    [Call "returns_five_slowly" [] [];
     Call "returns_five_slowly" [] [];
     Call "returns_five_slowly" [] [];
     Write ("returns_five_slowly returned 5." ++ newline);
     Write ("Running returns_five_slowly took 2/1 seconds." ++ newline)].
Proof.
  destruct (wrappers_keep_the_name returns_five_slowly) as [_ [_ Hstack]].
  exact (Hstack [] [] (session []) (OInt 5) eq_refl).
Defined.

(** C3, as stated, fails twice: [describe_as('')] returns no decorator,
    and for the adjective [Odd], which starts with a vowel, the sentence
    printed has the article [a]. *)
Lemma describe_as_counterexample :
  result (describe_as "" (session []))
    = Raised (new_exn IndexError "string index out of range") /\
  starts_with_vowel "Odd" = true /\
  match result (describe_as "Odd" (session [])) with
  | Returned d => trace (call (d does_nothing) [] [] (session []))
  | Raised _ => []
  end =
    [Call "does_nothing" [] [];
     Write ("does_nothing is a Odd function." ++ newline);
     Call "does_nothing" [] []].
Proof. repeat split. Qed.

(** The robot of the notebook after its first two registrations. *)
Lemma robot_finds_do_taxes :
  explicit_attribute
    (register_all Robot_init [sweep_the_floor; do_taxes]) "do_taxes" = None /\
  getattr (register_all Robot_init [sweep_the_floor; do_taxes]) "do_taxes"
          (session []) =
    MkRun (Returned (Command do_taxes)) (session []) [] /\
  getattr (register_all Robot_init [sweep_the_floor; do_taxes]) "dance"
          (session []) =
    MkRun (Raised (new_exn InvalidCommand "dance")) (session []) [].
Proof.
  split; [reflexivity | split].
  - exact (getattr_yields_registered_command
             [sweep_the_floor; do_taxes] "do_taxes" (session []) eq_refl).
  - exact (getattr_yields_registered_command
             [sweep_the_floor; do_taxes] "dance" (session []) eq_refl).
Defined.

Lemma registering_do_taxes :
  "sweep_the_floor" <> __name__ do_taxes /\
  snd (register_command (register_all Robot_init [sweep_the_floor]) do_taxes)
    = do_taxes /\
  dict_get
    (commands
       (fst (register_command (register_all Robot_init [sweep_the_floor])
                              do_taxes)))
    "sweep_the_floor" = Some sweep_the_floor /\
  list_commands
    (fst (register_command (register_all Robot_init [sweep_the_floor])
                           do_taxes))
    = ["sweep_the_floor"; "do_taxes"].
Proof.
  assert (Hne : "sweep_the_floor" <> __name__ do_taxes) by discriminate.
  split; [exact Hne | ].
  destruct (register_command_returns_its_argument
              (register_all Robot_init [sweep_the_floor]) do_taxes)
    as [Hret [_ [Hother [Hlist _]]]].
  split; [exact Hret | split; [ | exact Hlist ]].
  rewrite (Hother "sweep_the_floor" Hne). reflexivity.
Defined.

(** [good_reciprocal()] on four sessions: a word, the end of input, a
    zero, a four. *)
Lemma good_reciprocal_sessions :
  good_reciprocal console_input int "Enter a number" (session ["foo"]) =
    MkRun (Returned tt) (session [])
          [Write "Enter a number: "; Write ("Invalid input!" ++ newline)] /\
  (exists e,
     exc_type e = EOFError /\
     good_reciprocal console_input int "Enter a number" (session []) =
       MkRun (Raised e) (session []) [Write "Enter a number: "]) /\
  good_reciprocal console_input int "Enter a number" (session ["0"]) =
    MkRun (Returned tt) (session [])
          [Write "Enter a number: "; Write ("Cannot divide by 0!" ++ newline)] /\
  good_reciprocal console_input int "Enter a number" (session ["4"]) =
    MkRun (Returned tt) (session [])
          [Write "Enter a number: "; Write ("1/4" ++ newline)].
Proof.
  split; [ | split; [ | split ]].
  - destruct (good_reciprocal_catches_only_what_it_expects
                console_input int "Enter a number" (session ["foo"]))
      as [Hcaught _].
    exact (Hcaught _ eq_refl eq_refl).
  - eexists. split; [ | ].
    2: { destruct (good_reciprocal_catches_only_what_it_expects
                     console_input int "Enter a number" (session []))
           as [_ [Hother _]].
         exact (Hother _ eq_refl eq_refl). }
    reflexivity.
  - destruct (good_reciprocal_catches_only_what_it_expects
                console_input int "Enter a number" (session ["0"]))
      as [_ [_ Hread]].
    destruct (Hread 0%Z eq_refl) as [Hzero _].
    destruct (Hzero _ eq_refl) as [_ [_ Hrun]]. exact Hrun.
  - destruct (good_reciprocal_catches_only_what_it_expects
                console_input int "Enter a number" (session ["4"]))
      as [_ [_ Hread]].
    destruct (Hread 4%Z eq_refl) as [_ Hnum].
    destruct (Hnum _ eq_refl) as [_ Hrun]. exact Hrun.
Defined.

(** [less_confusing_user_function('Enter 3')] with 3 typed. *)
Lemma less_confusing_on_three :
  result (read_number console_input int "Enter 3" (session ["3"]))
    = Returned 3%Z /\
  exists original e,
    exc_type original = SuperConfusingError /\
    less_confusing_user_function console_input int "Enter 3" (session ["3"]) =
      MkRun (Raised e) (session []) [Write "Enter 3: "] /\
    exc_type e = ValueError /\
    args e = ["3 is no good."] /\
    __cause__ e = Some original.
Proof.
  split; [reflexivity | ].
  destruct (less_confusing_chains_the_cause console_input int)
    as [_ [_ Hchain]].
  destruct (Hchain "Enter 3" (session ["3"]) eq_refl)
    as [original [e [_ [Hcls [Hrun [Hty [Hargs Hcause]]]]]]].
  exists original, e. repeat split; assumption.
Defined.

(** [clean_user_function('Enter 3')] with 3 typed. *)
Lemma clean_on_three :
  result (read_number console_input int "Enter 3" (session ["3"]))
    = Returned 3%Z /\
  exists original e,
    exc_type original = SuperConfusingError /\
    clean_user_function console_input int "Enter 3" (session ["3"]) =
      MkRun (Raised e) (session []) [Write "Enter 3: "] /\
    exc_type e = ValueError /\
    args e = ["3 is no good."] /\
    __cause__ e = None /\
    reported_predecessor e = None /\
    __context__ e = Some original.
Proof.
  split; [reflexivity | ].
  destruct (clean_user_function_suppresses_the_cause
              console_input int "Enter 3" (session ["3"]) eq_refl)
    as [original [e [_ [Hcls [Hrun [Hty [Hargs [Hcause [_ [Hrep Hctx]]]]]]]]]].
  exists original, e. repeat split; assumption.
Defined.

(** C6, as stated, fails: with 3 typed, the [ValueError] that
    [clean_user_function] raises still has the exception raised by
    [imported_function] attached, as its [__context__]. *)
Lemma clean_keeps_the_original_attached :
  match result (clean_user_function console_input int "Enter 3"
                  (session ["3"])) with
  | Raised e =>
      exc_type e = ValueError /\
      match __context__ e with
      | Some original =>
          result (ExceptionHandling.imported_function 3 (session []))
            = Raised original
      | None => False
      end
  | Returned _ => False
  end.
Proof. cbn. split; reflexivity. Qed.

End Runs.

(** * Further properties of the cells *)

(** ** decorators.ipynb: stacks of decorators *)

Section StackFacts.
Import Decorators DecoratorCells Statements.
Context `{Host}.


(** The line [log_result] adds, if any: none when the call raised. *)
Lemma log_result_call_run (func : pyfunc) args kwargs w :
  let inner := call func args kwargs w in
  call (log_result func) args kwargs w =
    MkRun (result inner) (after inner)
          (Call (__name__ func) args kwargs
             :: trace inner
             ++ match result inner with
                | Returned v => [Write (log_result_line func v)]
                | Raised _ => []
                end).
Proof.
  intros inner. rewrite call_run, log_result_code_run. cbv zeta. fold inner.
  destruct (result inner) as [v | e]; cbn [result after trace].
  - reflexivity.
  - rewrite app_nil_r. reflexivity.
Qed.

(** X1. [log_result] handles nothing: when the function raises, the call
    of the wrapper raises that same exception, stops where the function
    stopped and writes nothing of its own, so no [returned] line is
    printed and no value is returned. *)
Theorem log_result_lets_exceptions_through (func : pyfunc) args kwargs w e :
  let body := __call__ func args kwargs w in
  result body = Raised e ->
  let r := call (log_result func) args kwargs w in
  result r = Raised e /\
  trace r =
    Call (__name__ (log_result func)) args kwargs
      :: Call (__name__ func) args kwargs :: trace body /\
  (forall text, In (Write text) (trace r) -> In (Write text) (trace body)) /\
  after r = after body.
Proof.
  intros body Hbody r. subst r.
  rewrite log_result_call_run. cbv zeta.
  rewrite call_run. cbn [result after trace]. fold body. rewrite Hbody.
  rewrite app_nil_r. repeat split.
  intros text [Hin | [Hin | Hin]]; [discriminate | discriminate | exact Hin].
Qed.




(** X5. The decorators written by hand are what the factory produces:
    [describe_as('boring')] and [describe_as('simple')] return decorators
    that give every function a wrapper with the same name, qualified name,
    docstring and behaviour as [describe_as_boring] and
    [describe_as_simple] give it. *)
Theorem describe_as_generates_the_hand_written_decorators w :
  (exists d,
     describe_as "boring" w = MkRun (Returned d) w [] /\
     forall func : pyfunc, d func = describe_as_boring func) /\
  (exists d,
     describe_as "simple" w = MkRun (Returned d) w [] /\
     forall func : pyfunc, d func = describe_as_simple func).
Proof.
  split; eexists; (split; [reflexivity | intros func; reflexivity]).
Qed.

End StackFacts.

(** ** decorators.ipynb: more on the robot *)

Section RegistryFacts.
Import Decorators.
Context `{Host}.

Lemma dict_setitem_twice (d : dict) k v v' :
  dict_setitem (dict_setitem d k v) k v' = dict_setitem d k v'.
Proof.
  induction d as [| [k' u] d IH]; cbn.
  - rewrite String.eqb_refl. reflexivity.
  - destruct (String.eqb k k') eqn:E; cbn; rewrite E.
    + reflexivity.
    + rewrite IH. reflexivity.
Qed.

(** X6. Registering a second function under a name already used by the first
    leaves the robot as if only the second had been registered: the later
    function replaces the earlier one, in the same place of the list.  In
    particular registering a function twice is registering it once. *)
Theorem register_command_last_one_wins (self : Robot) (f g : pyfunc) :
  __name__ f = __name__ g ->
  fst (register_command (fst (register_command self f)) g) =
    fst (register_command self g).
Proof.
  intros Hname. cbn [register_command fst commands].
  rewrite Hname, dict_setitem_twice. reflexivity.
Qed.

Lemma keys_after_registrations (fs : list pyfunc) (self : Robot) name :
  In name (list_commands (register_all self fs)) <->
  In name (list_commands self) \/ In name (map (fun f => __name__ f) fs).
Proof.
  unfold register_all. revert self.
  induction fs as [| f fs IH]; intros self; cbn [fold_left map].
  - cbn. tauto.
  - rewrite IH. unfold list_commands at 1.
    cbn [register_command fst commands]. rewrite dict_keys_setitem.
    fold (list_commands self).
    destruct (str_in (__name__ f) (list_commands self)) eqn:E.
    + apply str_in_In in E. cbn [In]. split.
      * intros [Hin | Hin]; [left; exact Hin | right; right; exact Hin].
      * intros [Hin | [<- | Hin]];
          [left; exact Hin | left; exact E | right; exact Hin].
    + rewrite in_app_iff. cbn [In]. tauto.
Qed.

(** X7. After any series of registrations on a new robot, [list_commands]
    lists exactly the names of the functions registered, each name once,
    so never more names than registrations. *)
Theorem list_commands_lists_each_name_once (fs : list pyfunc) :
  let robot := register_all Robot_init fs in
  NoDup (list_commands robot) /\
  (forall name,
     In name (list_commands robot) <->
     exists f, In f fs /\ __name__ f = name) /\
  List.length (list_commands robot) <= List.length fs.
Proof.
  intros robot.
  assert (Hnd : NoDup (list_commands robot)).
  { apply list_commands_nodup. constructor. }
  assert (Hin : forall name,
            In name (list_commands robot) <->
            In name (map (fun f => __name__ f) fs)).
  { intros name. unfold robot. rewrite keys_after_registrations.
    cbn. tauto. }
  split; [exact Hnd | split].
  - intros name. rewrite Hin, in_map_iff. split.
    + intros [f [Hf Hinf]]. exists f. split; assumption.
    + intros [f [Hinf Hf]]. exists f. split; assumption.
  - rewrite <- (length_map (fun f => __name__ f) fs).
    apply NoDup_incl_length; [exact Hnd | ].
    intros name Hname. apply Hin. exact Hname.
Qed.



End RegistryFacts.

(** ** The exception-handling notebook: the other cells *)

Section MoreExceptionFacts.
Import ExceptionHandling ExceptionCells Statements.
Context `{Host}.
Variable input : string -> M string.
Variable int : string -> M Z.

Lemma bind_assoc {A B C} (m : M A) (f : A -> M B) (k : B -> M C) w :
  bind (bind m f) k w = bind m (fun a => bind (f a) k) w.
Proof.
  unfold bind. destruct (m w) as [[a | e] w1 t1]; cbn [result after trace];
    [ | reflexivity ].
  destruct (f a w1) as [[b | e] w2 t2]; cbn [result after trace];
    [ | reflexivity ].
  rewrite app_assoc. reflexivity.
Qed.

(** A cell that reads a number and goes on with it. *)
Lemma reading_then {B} (k : Z -> M B) (msg : string) w :
  (line <- input (msg ++ ": ") ;; num <- int line ;; k num) w =
    bind (read_number input int msg) k w.
Proof. unfold read_number. rewrite bind_assoc. reflexivity. Qed.

Lemma divide_and_print (num : Z) w :
  (q <- int_truediv 1 num ;; print (float_str q)) w =
    if (num =? 0)%Z then
      MkRun (Raised (new_exn ZeroDivisionError "division by zero")) w []
    else MkRun (Returned tt) w [Write (float_str (truediv 1 num) ++ newline)].
Proof.
  unfold bind, int_truediv, print, emit, ret.
  destruct (num =? 0)%Z; reflexivity.
Qed.

(** The body shared by [reciprocal] and [reciprocal2]. *)
Lemma reciprocal_run (msg : string) w :
  let rd := read_number input int msg w in
  reciprocal input int msg w =
    match result rd with
    | Raised e => MkRun (Raised e) (after rd) (trace rd)
    | Returned num =>
        if (num =? 0)%Z then
          MkRun (Raised (new_exn ZeroDivisionError "division by zero"))
                (after rd) (trace rd)
        else
          MkRun (Returned tt) (after rd)
                (trace rd ++ [Write (float_str (truediv 1 num) ++ newline)])
    end.
Proof.
  intros rd. unfold reciprocal. rewrite reading_then.
  unfold bind at 1. fold rd.
  destruct (result rd) as [num | e]; [ | reflexivity ].
  rewrite divide_and_print.
  destruct (num =? 0)%Z; cbn [result after trace].
  - rewrite app_nil_r. reflexivity.
  - reflexivity.
Qed.

(** X9. [reciprocal] handles nothing: whatever the reading raises leaves the
    function, a zero makes the division raise [ZeroDivisionError], and in
    both cases nothing is printed after the prompt; any other number has
    its reciprocal printed. *)
Theorem reciprocal_handles_nothing (msg : string) w :
  let rd := read_number input int msg w in
  (forall e, result rd = Raised e ->
     reciprocal input int msg w = MkRun (Raised e) (after rd) (trace rd)) /\
  (result rd = Returned 0%Z ->
     reciprocal input int msg w =
       MkRun (Raised (new_exn ZeroDivisionError "division by zero"))
             (after rd) (trace rd)) /\
  (forall num, result rd = Returned num -> num <> 0%Z ->
     reciprocal input int msg w =
       MkRun (Returned tt) (after rd)
             (trace rd ++ [Write (float_str (truediv 1 num) ++ newline)])).
Proof.
  intros rd. assert (Hrun := reciprocal_run msg w). cbv zeta in Hrun.
  fold rd in Hrun. repeat split.
  - intros e Hrd. rewrite Hrun, Hrd. reflexivity.
  - intros Hrd. rewrite Hrun, Hrd. reflexivity.
  - intros num Hrd Hnz. rewrite Hrun, Hrd.
    apply Z.eqb_neq in Hnz. rewrite Hnz. reflexivity.
Qed.

(** X10. [reciprocal2], with its bare [except], never raises, whatever [input]
    and [int] raise: it returns [None] after one more line, the reciprocal
    when a number other than zero was read and [Invalid input!] in every
    other case, a zero included. *)
Theorem reciprocal2_never_raises (msg : string) w :
  let rd := read_number input int msg w in
  reciprocal2 input int msg w =
    MkRun (Returned tt) (after rd)
          (trace rd
             ++ [Write (match result rd with
                        | Returned num =>
                            if (num =? 0)%Z then "Invalid input!" ++ newline
                            else float_str (truediv 1 num) ++ newline
                        | Raised _ => "Invalid input!" ++ newline
                        end)]).
Proof.
  intros rd. unfold reciprocal2, try_except_all.
  change (line <- input (msg ++ ": ") ;; num <- int line ;;
          q <- int_truediv 1 num ;; print (float_str q))
    with (reciprocal input int msg).
  rewrite reciprocal_run. cbv zeta. fold rd.
  destruct (result rd) as [num | e]; [ | reflexivity ].
  destruct (num =? 0)%Z; reflexivity.
Qed.

Lemma bad_body_run (msg : string) w :
  let rd := read_number input int msg w in
  (line <- input (msg ++ ": ") ;;
   num <- int line ;;
   nun <- unbound_name "nun" ;;
   q <- int_truediv 1 nun ;;
   print (float_str q)) w =
    MkRun (match result rd with
           | Returned _ => Raised (new_exn NameError "name 'nun' is not defined")
           | Raised e => Raised e
           end)
          (after rd) (trace rd).
Proof.
  intros rd.
  rewrite (reading_then
             (fun _ => nun <- unbound_name "nun" ;;
                       q <- int_truediv 1 nun ;; print (float_str q))).
  unfold bind at 1. fold rd.
  destruct (result rd) as [num | e]; [ | reflexivity ].
  cbn. rewrite app_nil_r. reflexivity.
Qed.

(** X11. [bad_reciprocal] calls every input invalid: the misspelt name raises
    [NameError] as soon as a number has been read, the bare [except]
    swallows it, and so the function always ends by printing
    [Invalid input!] and never prints a reciprocal. *)
Theorem bad_reciprocal_calls_everything_invalid (msg : string) w :
  let rd := read_number input int msg w in
  bad_reciprocal input int msg w =
    MkRun (Returned tt) (after rd)
          (trace rd ++ [Write ("Invalid input!" ++ newline)]).
Proof.
  intros rd. unfold bad_reciprocal, try_except_all.
  rewrite bad_body_run. cbv zeta. fold rd. cbn [result after trace].
  destruct (result rd); reflexivity.
Qed.

(** X12. [less_bad_reciprocal] names what it catches, so the misspelt name
    shows: after any successful reading the [NameError] leaves the
    function and nothing more is printed.  Of what the reading raises, a
    [ValueError] prints [Invalid input!], a [ZeroDivisionError] prints
    [Cannot divide by 0!], and everything else leaves the function. *)
Theorem less_bad_reciprocal_shows_the_typo (msg : string) w :
  let rd := read_number input int msg w in
  (forall num, result rd = Returned num ->
     less_bad_reciprocal input int msg w =
       MkRun (Raised (new_exn NameError "name 'nun' is not defined"))
             (after rd) (trace rd)) /\
  (forall e, result rd = Raised e -> isinstance e ValueError = true ->
     less_bad_reciprocal input int msg w =
       MkRun (Returned tt) (after rd)
             (trace rd ++ [Write ("Invalid input!" ++ newline)])) /\
  (forall e, result rd = Raised e -> isinstance e ValueError = false ->
     isinstance e ZeroDivisionError = true ->
     less_bad_reciprocal input int msg w =
       MkRun (Returned tt) (after rd)
             (trace rd ++ [Write ("Cannot divide by 0!" ++ newline)])) /\
  (forall e, result rd = Raised e -> isinstance e ValueError = false ->
     isinstance e ZeroDivisionError = false ->
     less_bad_reciprocal input int msg w =
       MkRun (Raised e) (after rd) (trace rd)).
Proof.
  intros rd. unfold less_bad_reciprocal, try_except_clauses.
  rewrite bad_body_run. cbv zeta. fold rd. cbn [result after trace].
  repeat split.
  - intros num Hrd. rewrite Hrd. reflexivity.
  - intros e Hrd Hv. rewrite Hrd. cbn [matching_clause]. rewrite Hv.
    reflexivity.
  - intros e Hrd Hv Hz. rewrite Hrd. cbn [matching_clause]. rewrite Hv, Hz.
    reflexivity.
  - intros e Hrd Hv Hz. rewrite Hrd. cbn [matching_clause]. rewrite Hv, Hz.
    reflexivity.
Qed.

(** The body of [enter_a_number]'s [try], which discards the number. *)
Lemma check_number_run w :
  let rd := read_number input int "Enter a number" w in
  (line <- input "Enter a number: " ;; _ <- int line ;; ret true) w =
    MkRun (match result rd with
           | Returned _ => Returned true
           | Raised e => Raised e
           end)
          (after rd) (trace rd).
Proof.
  intros rd.
  change "Enter a number: " with ("Enter a number" ++ ": ").
  rewrite (reading_then (fun _ => ret true)).
  unfold bind. fold rd.
  destruct (result rd) as [num | e]; [ | reflexivity ].
  cbn. rewrite app_nil_r. reflexivity.
Qed.

Lemma better_enter_a_number_run w :
  let rd := read_number input int "Enter a number" w in
  better_enter_a_number input int w =
    match result rd with
    | Returned _ =>
        MkRun (Returned tt) (after rd)
              (trace rd ++ [Write ("Yup!  That's a number all right." ++ newline)])
    | Raised e =>
        if isinstance e ValueError then
          MkRun (Returned tt) (after rd)
                (trace rd ++ [Write ("That's not a number!" ++ newline)])
        else MkRun (Raised e) (after rd) (trace rd)
    end.
Proof.
  intros rd. unfold better_enter_a_number, try_except_else.
  change (line <- input "Enter a number: " ;; int line)
    with (read_number input int "Enter a number").
  fold rd. destruct (result rd) as [num | e]; [reflexivity | ].
  destruct (isinstance e ValueError); reflexivity.
Qed.

(** X13. The rewriting of [enter_a_number] with [else] changes nothing:
    [better_enter_a_number] does exactly what [enter_a_number] does, in
    every session and whatever [input] and [int] do.  Both print
    [That's not a number!] on a [ValueError], let any other exception
    out, and otherwise print the confirmation. *)
Theorem better_enter_a_number_is_enter_a_number w :
  let rd := read_number input int "Enter a number" w in
  better_enter_a_number input int w = enter_a_number input int w /\
  enter_a_number input int w =
    match result rd with
    | Returned _ =>
        MkRun (Returned tt) (after rd)
              (trace rd ++ [Write ("Yup!  That's a number all right." ++ newline)])
    | Raised e =>
        if isinstance e ValueError then
          MkRun (Returned tt) (after rd)
                (trace rd ++ [Write ("That's not a number!" ++ newline)])
        else MkRun (Raised e) (after rd) (trace rd)
    end.
Proof.
  intros rd.
  assert (Henter : enter_a_number input int w =
    match result rd with
    | Returned _ =>
        MkRun (Returned tt) (after rd)
              (trace rd ++ [Write ("Yup!  That's a number all right." ++ newline)])
    | Raised e =>
        if isinstance e ValueError then
          MkRun (Returned tt) (after rd)
                (trace rd ++ [Write ("That's not a number!" ++ newline)])
        else MkRun (Raised e) (after rd) (trace rd)
    end).
  { unfold enter_a_number. unfold bind at 1, try_except.
    rewrite check_number_run. cbv zeta. fold rd. cbn [result after trace].
    destruct (result rd) as [num | e]; [reflexivity | ].
    destruct (isinstance e ValueError); cbn [result after trace].
    - cbn. rewrite app_nil_r. reflexivity.
    - reflexivity. }
  split; [ | exact Henter ].
  rewrite Henter. apply better_enter_a_number_run.
Qed.

(** X14. [end_with_a_bow] always takes its bow: however the reading and
    the formatting of the double end, the last thing written is
    [That's all, folks!].  The function returns after the line about the
    double when a number was read and formatted, and otherwise raises
    what the reading or the formatting raised. *)
Theorem end_with_a_bow_always_bows (format_int : Z -> M string) w :
  let rd := read_number input int "Enter a number" w in
  end_with_a_bow input int format_int w =
    match result rd with
    | Raised e =>
        MkRun (Raised e) (after rd)
              (trace rd ++ [Write ("That's all, folks!" ++ newline)])
    | Returned num =>
        let fm := format_int (num * 2)%Z (after rd) in
        match result fm with
        | Raised e =>
            MkRun (Raised e) (after fm)
                  (trace rd ++ trace fm
                     ++ [Write ("That's all, folks!" ++ newline)])
        | Returned double =>
            MkRun (Returned tt) (after fm)
                  (trace rd ++ trace fm
                     ++ [Write (("Your number is half of " ++ double ++ ".")
                                  ++ newline);
                         Write ("That's all, folks!" ++ newline)])
        end
    end.
Proof.
  intros rd. unfold end_with_a_bow, try_finally.
  change "Enter a number: " with ("Enter a number" ++ ": ").
  set (k := fun num : Z =>
              double <- format_int (num * 2)%Z ;;
              print ("Your number is half of " ++ double ++ ".")).
  rewrite (reading_then k).
  assert (Hbody : bind (read_number input int "Enter a number") k w =
    match result rd with
    | Raised e => MkRun (Raised e) (after rd) (trace rd)
    | Returned num =>
        MkRun (result (k num (after rd))) (after (k num (after rd)))
              (trace rd ++ trace (k num (after rd)))
    end).
  { unfold bind. fold rd. destruct (result rd); reflexivity. }
  rewrite Hbody. clear Hbody.
  destruct (result rd) as [num | e]; cbn [result after trace print emit];
    [ | reflexivity ].
  subst k. cbv beta zeta. unfold bind.
  destruct (format_int (num * 2)%Z (after rd)) as [[double | e] w2 t2];
    cbn [result after trace print emit app].
  - rewrite <- !app_assoc. reflexivity.
  - rewrite <- !app_assoc. reflexivity.
Qed.

(** The built-in conversion refuses exactly the integers of more than
    4300 digits, and then [end_with_a_bow] raises after its bow. *)
Lemma str_int_refuses_long_integers (n : Z) w :
  (exists e, result (str_int n w) = Raised e /\ exc_type e = ValueError) <->
  (10 ^ 4300 <= Z.abs n)%Z.
Proof.
  unfold str_int, max_str_digits.
  destruct (10 ^ 4300 <=? Z.abs n)%Z eqn:E.
  - apply Z.leb_le in E. split; [intros _; exact E | ].
    intros _. eexists. split; reflexivity.
  - apply Z.leb_gt in E. split; [ | lia ].
    intros [e [He _]]. discriminate He.
Qed.

End MoreExceptionFacts.

(** ** The exception-handling notebook: more on the chained exceptions *)

Section TranslationFacts.
Import ExceptionHandling.
Context `{Host}.
Variable input : string -> M string.
Variable int : string -> M Z.

Lemma sum_to_twice (n : nat) :
  (2 * list_sum (seq 0 (S n)) = n * (n + 1))%nat.
Proof.
  induction n as [| n IH].
  - reflexivity.
  - rewrite seq_S, list_sum_app.
    remember (list_sum (seq 0 (S n))) as s eqn:Hs.
    unfold list_sum. cbn [fold_right]. nia.
Qed.

(** X16. Off 3, [imported_function] returns the triangular number: the floor
    division loses nothing, so twice the result is [num * (num + 1)]; the
    result is never negative, and for a natural number it is the sum
    [0 + 1 + ... + num]. *)
Theorem imported_function_returns_the_triangular_number (num : Z) w :
  num <> 3%Z ->
  exists t,
    imported_function num w = MkRun (Returned t) w [] /\
    (2 * t = num * (num + 1))%Z /\
    (0 <= t)%Z /\
    (forall n : nat, num = Z.of_nat n ->
       t = Z.of_nat (list_sum (seq 0 (S n)))).
Proof.
  intros Hne. exists (num * (num + 1) / 2)%Z.
  assert (Hexact : (2 * (num * (num + 1) / 2) = num * (num + 1))%Z).
  { destruct (Z.Even_or_Odd num) as [[k Hk] | [k Hk]]; subst num.
    - replace (2 * k * (2 * k + 1))%Z with (k * (2 * k + 1) * 2)%Z by ring.
      rewrite Z.div_mul by lia. ring.
    - replace ((2 * k + 1) * (2 * k + 1 + 1))%Z
        with ((2 * k + 1) * (k + 1) * 2)%Z by ring.
      rewrite Z.div_mul by lia. ring. }
  split; [ | split; [exact Hexact | split] ].
  - rewrite imported_function_run. apply Z.eqb_neq in Hne. rewrite Hne.
    reflexivity.
  - apply Z.div_pos; [nia | lia].
  - intros n ->. assert (Hsum := sum_to_twice n).
    remember (list_sum (seq 0 (S n))) as s eqn:Hs.
    remember (Z.of_nat n * (Z.of_nat n + 1) / 2)%Z as t eqn:Ht.
    nia.
Qed.

(** X17. The three user functions differ only on 3.  Whenever the reading
    does not yield 3 they do the same thing: they return the triangular
    number of the number read, or raise what the reading raised; a
    [ValueError] from [int] is raised outside their [try] and reaches the
    caller untranslated. *)
Theorem user_functions_agree_off_three (msg : string) w :
  let rd := read_number input int msg w in
  result rd <> Returned 3%Z ->
  let r := MkRun (match result rd with
                  | Returned num => Returned (num * (num + 1) / 2)%Z
                  | Raised e => Raised e
                  end)
                 (after rd) (trace rd) in
  user_function input int msg w = r /\
  less_confusing_user_function input int msg w = r /\
  clean_user_function input int msg w = r.
Proof.
  intros rd Hrd r.
  assert (Hall : forall handler : exn -> M Z,
    (line <- input (msg ++ ": ") ;;
     num <- int line ;;
     try_except (imported_function num) SuperConfusingError handler) w = r).
  { intros handler. subst r. revert Hrd. subst rd.
    unfold read_number, bind.
    destruct (input (msg ++ ": ") w) as [[line | e] w1 t1];
      cbn [result after trace]; [ | reflexivity ].
    destruct (int line w1) as [[num | e] w2 t2]; cbn [result after trace];
      [ | reflexivity ].
    intros Hne. unfold try_except. rewrite imported_function_run.
    destruct (num =? 3)%Z eqn:E.
    - apply Z.eqb_eq in E. subst num. contradiction.
    - cbn [result after trace]. rewrite app_nil_r. reflexivity. }
  unfold user_function, less_confusing_user_function, clean_user_function.
  rewrite !Hall. repeat split.
Qed.

(** X18. [good_reciprocal] raises nothing of its own: whatever leaves it was
    raised by the reading of the number, and is no [ValueError]. *)
Theorem good_reciprocal_raises_only_what_the_reading_raised
    (msg : string) w e :
  result (good_reciprocal input int msg w) = Raised e ->
  result (read_number input int msg w) = Raised e /\
  isinstance e ValueError = false.
Proof.
  unfold good_reciprocal. intros Hraised.
  assert (Hfirst := first_try_run input int msg w). cbv zeta in Hfirst.
  destruct (result (read_number input int msg w)) as [num | e'] eqn:Hrd.
  - rewrite (bind_returned _ _ w (Some num)) in Hraised
      by (rewrite Hfirst; reflexivity).
    rewrite second_try_run in Hraised. discriminate Hraised.
  - destruct (isinstance e' ValueError) eqn:Hv.
    + rewrite (bind_returned _ _ w None) in Hraised
        by (rewrite Hfirst; reflexivity).
      discriminate Hraised.
    + rewrite (bind_raised _ _ w e') in Hraised
        by (rewrite Hfirst; reflexivity).
      cbn [result] in Hraised. injection Hraised as <-.
      split; [reflexivity | exact Hv].
Qed.

End TranslationFacts.

(** ** More runs on the concrete host *)

Module MoreRuns.
Import Decorators DecoratorCells ExceptionHandling ExceptionCells Demo.


(** The first definitions of the notebook, stacked on
    [returns_five_slowly]. *)
Lemma plain_stack_on_five :
  trace (call (timer_plain (log_result_plain returns_five_slowly)) [] []
              (session [])) =
    [Call "new_func" [] [];
     Call "new_func" [] [];
     Call "returns_five_slowly" [] [];
     Write ("returns_five_slowly returned 5." ++ newline);
     Write ("Running new_func took 2/1 seconds." ++ newline)].
Proof.
  exact (plain_stack_reports_new_func
           returns_five_slowly [] [] (session []) (OInt 5) eq_refl).
Defined.

(** [do_taxes] registered, then its timed version under the same name. *)
Lemma timed_do_taxes_replaces_do_taxes :
  __name__ do_taxes = __name__ (timer do_taxes) /\
  list_commands
    (fst (register_command
            (fst (register_command
                    (register_all Robot_init [sweep_the_floor]) do_taxes))
            (timer do_taxes)))
    = ["sweep_the_floor"; "do_taxes"] /\
  dict_get
    (commands
       (fst (register_command
               (fst (register_command
                       (register_all Robot_init [sweep_the_floor]) do_taxes))
               (timer do_taxes))))
    "do_taxes" = Some (timer do_taxes).
Proof.
  split; [reflexivity | ].
  rewrite (register_command_last_one_wins
             (register_all Robot_init [sweep_the_floor])
             do_taxes (timer do_taxes) eq_refl).
  split; reflexivity.
Defined.

Lemma three_registrations_two_names :
  list_commands
    (register_all Robot_init [sweep_the_floor; do_taxes; sweep_the_floor])
    = ["sweep_the_floor"; "do_taxes"] /\
  In "do_taxes"
     (list_commands
        (register_all Robot_init [sweep_the_floor; do_taxes; sweep_the_floor])).
Proof.
  split; [reflexivity | ].
  destruct (list_commands_lists_each_name_once
              [sweep_the_floor; do_taxes; sweep_the_floor])
    as [_ [Hin _]].
  apply (Hin "do_taxes"). exists do_taxes. split; [ | reflexivity ].
  right. left. reflexivity.
Defined.


(** [log_result(imported_function)(3)]: the exception comes out, nothing
    is printed. *)
Lemma log_result_lets_the_error_out :
  exists e,
    result (__call__ imported_function [OInt 3] [] (session [])) = Raised e /\
    exc_type e = SuperConfusingError /\
    result (call (log_result imported_function) [OInt 3] [] (session []))
      = Raised e /\
    trace (call (log_result imported_function) [OInt 3] [] (session [])) =
      [Call "imported_function" [OInt 3] [];
       Call "imported_function" [OInt 3] []].
Proof.
  eexists. split; [reflexivity | split; [reflexivity | ]].
  destruct (log_result_lets_exceptions_through
              imported_function [OInt 3] [] (session []) _ eq_refl)
    as [Hres [Htr _]].
  split; [exact Hres | exact Htr].
Defined.


(** [end_with_a_bow()] with 21 typed, and with nothing typed. *)
Lemma end_with_a_bow_sessions :
  end_with_a_bow console_input int Statements.str_int (session ["21"]) =
    MkRun (Returned tt) (session [])
          [Write "Enter a number: ";
           Write ("Your number is half of 42." ++ newline);
           Write ("That's all, folks!" ++ newline)] /\
  exists e,
    exc_type e = EOFError /\
    end_with_a_bow console_input int Statements.str_int (session []) =
      MkRun (Raised e) (session [])
            [Write "Enter a number: ";
             Write ("That's all, folks!" ++ newline)].
Proof.
  split.
  - rewrite (end_with_a_bow_always_bows
               console_input int Statements.str_int (session ["21"])).
    vm_compute. reflexivity.
  - eexists. split.
    2: { rewrite (end_with_a_bow_always_bows
                    console_input int Statements.str_int (session [])).
         reflexivity. }
    reflexivity.
Defined.

(** [reciprocal()] at the end of input, on a zero and on a four. *)
Lemma reciprocal_sessions :
  (exists e,
     exc_type e = EOFError /\
     reciprocal console_input int "Enter a number" (session []) =
       MkRun (Raised e) (session []) [Write "Enter a number: "]) /\
  reciprocal console_input int "Enter 0" (session ["0"]) =
    MkRun (Raised (new_exn ZeroDivisionError "division by zero"))
          (session []) [Write "Enter 0: "] /\
  reciprocal console_input int "Enter a number" (session ["4"]) =
    MkRun (Returned tt) (session [])
          [Write "Enter a number: "; Write ("1/4" ++ newline)].
Proof.
  split; [ | split ].
  - eexists. split.
    2: { destruct (reciprocal_handles_nothing
                     console_input int "Enter a number" (session []))
           as [Hraise _].
         exact (Hraise _ eq_refl). }
    reflexivity.
  - destruct (reciprocal_handles_nothing
                console_input int "Enter 0" (session ["0"]))
      as [_ [Hzero _]].
    exact (Hzero eq_refl).
  - destruct (reciprocal_handles_nothing
                console_input int "Enter a number" (session ["4"]))
      as [_ [_ Hnum]].
    refine (Hnum 4%Z eq_refl _). discriminate.
Defined.

(** [less_bad_reciprocal] on a five, on a word, at the end of input, and
    with a reading that fails with a division by zero. *)
Lemma less_bad_reciprocal_sessions :
  less_bad_reciprocal console_input int "Enter a number" (session ["5"]) =
    MkRun (Raised (new_exn NameError "name 'nun' is not defined"))
          (session []) [Write "Enter a number: "] /\
  less_bad_reciprocal console_input int "Enter a number" (session ["foo"]) =
    MkRun (Returned tt) (session [])
          [Write "Enter a number: "; Write ("Invalid input!" ++ newline)] /\
  (exists e,
     exc_type e = EOFError /\
     less_bad_reciprocal console_input int "Enter a number" (session []) =
       MkRun (Raised e) (session []) [Write "Enter a number: "]) /\
  less_bad_reciprocal console_input
    (fun _ => raise (new_exn ZeroDivisionError "division by zero"))
    "Enter a number" (session ["5"]) =
    MkRun (Returned tt) (session [])
          [Write "Enter a number: "; Write ("Cannot divide by 0!" ++ newline)].
Proof.
  split; [ | split; [ | split ] ].
  - destruct (less_bad_reciprocal_shows_the_typo
                console_input int "Enter a number" (session ["5"]))
      as [Htypo _].
    exact (Htypo 5%Z eq_refl).
  - destruct (less_bad_reciprocal_shows_the_typo
                console_input int "Enter a number" (session ["foo"]))
      as [_ [Hvalue _]].
    exact (Hvalue _ eq_refl eq_refl).
  - eexists. split.
    2: { destruct (less_bad_reciprocal_shows_the_typo
                     console_input int "Enter a number" (session []))
           as [_ [_ [_ Hother]]].
         exact (Hother _ eq_refl eq_refl eq_refl). }
    reflexivity.
  - destruct (less_bad_reciprocal_shows_the_typo
                console_input
                (fun _ => raise (new_exn ZeroDivisionError "division by zero"))
                "Enter a number" (session ["5"]))
      as [_ [_ [Hzero _]]].
    exact (Hzero _ eq_refl eq_refl eq_refl).
Defined.

(** [user_function('Enter 3')] with 3 typed. *)
Lemma user_function_on_three :
  result (read_number console_input int "Enter 3" (session ["3"]))
    = Returned 3%Z /\
  exists original e,
    exc_type original = SuperConfusingError /\
    user_function console_input int "Enter 3" (session ["3"]) =
      MkRun (Raised e) (session []) [Write "Enter 3: "] /\
    exc_type e = ValueError /\
    args e = ["3 is no good."] /\
    __cause__ e = None /\
    reported_predecessor e = Some original.
Proof.
  split; [reflexivity | ].
  destruct (user_function_keeps_the_context
              console_input int "Enter 3" (session ["3"]) eq_refl)
    as [original [e [_ [Hcls [Hrun [Hty [Hargs [Hcause [_ [_ Hrep]]]]]]]]]].
  exists original, e. repeat split; assumption.
Defined.

Lemma imported_function_on_four :
  4%Z <> 3%Z /\
  ExceptionHandling.imported_function 4 (session []) =
    MkRun (Returned 10%Z) (session []) [] /\
  10%Z = Z.of_nat (list_sum (seq 0 5)).
Proof.
  assert (Hne : 4%Z <> 3%Z) by discriminate.
  split; [exact Hne | ].
  destruct (imported_function_returns_the_triangular_number
              4%Z (session []) Hne)
    as [t [Hrun [_ [_ Hsum]]]].
  rewrite (Hsum 4 eq_refl) in Hrun.
  split; [exact Hrun | reflexivity].
Defined.

(** The three user functions with 4 typed. *)
Lemma user_functions_on_four :
  result (read_number console_input int "Enter 4" (session ["4"]))
    <> Returned 3%Z /\
  user_function console_input int "Enter 4" (session ["4"]) =
    MkRun (Returned 10%Z) (session []) [Write "Enter 4: "] /\
  less_confusing_user_function console_input int "Enter 4" (session ["4"]) =
    MkRun (Returned 10%Z) (session []) [Write "Enter 4: "] /\
  clean_user_function console_input int "Enter 4" (session ["4"]) =
    MkRun (Returned 10%Z) (session []) [Write "Enter 4: "].
Proof.
  assert (Hne : result (read_number console_input int "Enter 4" (session ["4"]))
                <> Returned 3%Z) by discriminate.
  split; [exact Hne | ].
  exact (user_functions_agree_off_three
           console_input int "Enter 4" (session ["4"]) Hne).
Defined.

(** [good_reciprocal()] at the end of input: the [EOFError] of the
    reading is what comes out. *)
Lemma good_reciprocal_at_end_of_input :
  exists e,
    result (good_reciprocal console_input int "Enter a number" (session []))
      = Raised e /\
    exc_type e = EOFError /\
    isinstance e ValueError = false.
Proof.
  eexists. split; [reflexivity | split; [reflexivity | ]].
  destruct (good_reciprocal_raises_only_what_the_reading_raised
              console_input int "Enter a number" (session []) _ eq_refl)
    as [_ Hv].
  exact Hv.
Defined.

End MoreRuns.
